(** * d2 model validation: [src/model/ModelValidation.js]

    A shallow embedding of the [ModelValidation] class (methods [validate] and
    [validateAgainstSchema]) and of the module-level helpers it calls, followed
    by the properties of the validation rule engine.

    Layout:
    - [number], [Value]: the JavaScript values the module receives;
    - [Host], [ToString], [ToNumber], [IsLessThan], [Get]: the language
      operations the source relies on;
    - [D2Check]: the predicates imported from ['d2/lib/check'];
    - [Store], [M]: the module-level state and the effects of the methods;
    - the functions of the source file, in source order;
    - the theorems. *)

From Stdlib Require Import ZArith QArith Qround Ascii DecimalString.
From stdpp Require Import gmap strings list.

#[local] Set Warnings "-register-all".
#[local] Open Scope string_scope.

(** ** Numbers

    The module never does arithmetic on a number: it tests its type, its
    truthiness, whether it is finite or whole, and compares it with another
    one.  A finite number is therefore kept as the exact rational it denotes
    (every finite double is one; [-0] and [0] are not told apart by any of these
    operations), next to [NaN] and the two infinities. *)

Inductive number :=
| NaN
| Infinity (negative : bool)
| Fin (q : Q).

Definition isFinite (n : number) : bool :=
  match n with Fin _ => true | _ => false end.

Definition Qlt_bool (a b : Q) : bool := negb (Qle_bool b a).

(** [Number::lessThan]: [None] is the [undefined] answer given when an operand
    is [NaN]. *)
Definition Number_lessThan (x y : number) : option bool :=
  match x, y with
  | NaN, _ | _, NaN => None
  | Infinity true, Infinity true => Some false
  | Infinity false, Infinity false => Some false
  | Infinity false, _ => Some false
  | _, Infinity false => Some true
  | _, Infinity true => Some false
  | Infinity true, _ => Some true
  | Fin a, Fin b => Some (Qlt_bool a b)
  end.

Definition Number_equal (x y : number) : bool :=
  match x, y with
  | Fin a, Fin b => Qeq_bool a b
  | Infinity s, Infinity t => Bool.eqb s t
  | _, _ => false
  end.

Definition number_of_Z (z : Z) : number := Fin (inject_Z z).
Definition number_of_nat (n : nat) : number := number_of_Z (Z.of_nat n).

(** A finite number is whole when it equals its floor. *)
Definition isWhole (q : Q) : bool := Qeq_bool (inject_Z (Qfloor q)) q.

(** ** Values

    Rules, values and models reach the module as data: primitives, arrays and
    plain objects.  An object is the finite map of its own properties. *)

Inductive Value :=
| VUndefined
| VNull
| VBool (b : bool)
| VNum (n : number)
| VStr (s : string)
| VArr (items : list Value)
| VObj (props : gmap string Value).

Definition ToBoolean (v : Value) : bool :=
  match v with
  | VUndefined | VNull => false
  | VBool b => b
  | VNum NaN => false
  | VNum (Infinity _) => true
  | VNum (Fin q) => negb (Qeq_bool q 0)
  | VStr s => negb (String.eqb s "")
  | VArr _ | VObj _ => true
  end.

(** [x === y].  Arrays and objects are equal to themselves only; the module
    compares with literals of primitive type, for which the answer on an array
    or an object is [false]. *)
Definition IsStrictlyEqual (x y : Value) : bool :=
  match x, y with
  | VUndefined, VUndefined | VNull, VNull => true
  | VBool a, VBool b => Bool.eqb a b
  | VNum a, VNum b => Number_equal a b
  | VStr a, VStr b => String.eqb a b
  | _, _ => false
  end.

(** ** The host's number printer and reader

    [Number::toString] is written out for [NaN], the infinities and the whole
    numbers below [10^21], which print as their decimal digits; the shortest
    round-trip printing of the other numbers is the host's.  [StringToNumber]
    is written out for plain decimal literals (optional sign, digits, optional
    fraction); the rest of its grammar (white space, exponents, hexadecimal,
    ["Infinity"]) is the host's.  Every theorem holds for every [Host]. *)

Class Host := {
  Number_toString_other : Q -> string;
  StringToNumber_other : string -> number
}.

Definition digitValue (c : ascii) : option Z :=
  let n := Z.of_N (N_of_ascii c) in
  if ((48 <=? n) && (n <=? 57))%Z then Some (n - 48)%Z else None.

Fixpoint digitsValue (acc : Z) (s : string) : option Z :=
  match s with
  | EmptyString => Some acc
  | String c s' =>
      match digitValue c with
      | Some d => digitsValue (10 * acc + d)%Z s'
      | None => None
      end
  end.

Definition digitString (s : string) : option Z :=
  if String.eqb s "" then None else digitsValue 0 s.

Fixpoint splitDot (s : string) : string * option string :=
  match s with
  | EmptyString => (EmptyString, None)
  | String c r =>
      if Ascii.eqb c "." then (EmptyString, Some r)
      else let '(a, b) := splitDot r in (String c a, b)
  end.

Definition unsignedLiteral (s : string) : option Q :=
  let '(i, f) := splitDot s in
  match digitString i, f with
  | Some n, None => Some (inject_Z n)
  | Some n, Some fs =>
      match digitString fs with
      | Some m => Some (inject_Z n + (m # Pos.pow 10 (Pos.of_nat (String.length fs))))%Q
      | None => None
      end
  | None, _ => None
  end.

Definition decimalLiteral (s : string) : option Q :=
  match s with
  | String c r =>
      if Ascii.eqb c "+" then unsignedLiteral r
      else if Ascii.eqb c "-" then Qopp <$> unsignedLiteral r
      else unsignedLiteral s
  | EmptyString => None
  end.

Section Conversions.
Context {host : Host}.

Definition Number_toString (n : number) : string :=
  match n with
  | NaN => "NaN"
  | Infinity false => "Infinity"
  | Infinity true => "-Infinity"
  | Fin q =>
      if isWhole q && (Z.abs (Qfloor q) <? 10 ^ 21)%Z
      then NilZero.string_of_int (Z.to_int (Qfloor q))
      else Number_toString_other q
  end.

Definition StringToNumber (s : string) : number :=
  match decimalLiteral s with
  | Some q => Fin q
  | None => StringToNumber_other s
  end.

(** [ToString], with [Array.prototype.join] inlined for arrays: elements are
    joined by [sep], [undefined] and [null] elements print as nothing.  Plain
    objects print through [Object.prototype.toString].  An object with an own
    [toString] property has no text (the conversion throws, a data property
    not being callable); [printable] below tells such values apart, and the
    function is meant on printable values only. *)
Fixpoint ToString (v : Value) : string :=
  match v with
  | VUndefined => "undefined"
  | VNull => "null"
  | VBool true => "true"
  | VBool false => "false"
  | VNum n => Number_toString n
  | VStr s => s
  | VArr items =>
      (fix join (l : list Value) : string :=
         match l with
         | [] => ""
         | x :: rest =>
             let e := match x with VUndefined | VNull => "" | _ => ToString x end in
             match rest with
             | [] => e
             | _ :: _ => e ++ "," ++ join rest
             end
         end) items
  | VObj _ => "[object Object]"
  end.

Definition joinElement (x : Value) : string :=
  match x with VUndefined | VNull => "" | _ => ToString x end.

(** [items.join(sep)] *)
Fixpoint Array_join (sep : string) (items : list Value) : string :=
  match items with
  | [] => ""
  | x :: rest =>
      match rest with
      | [] => joinElement x
      | _ :: _ => joinElement x ++ sep ++ Array_join sep rest
      end
  end.

(** [ToPrimitive] with hint number: [valueOf] of an array or a plain object
    answers the object itself, so [toString] decides. *)
Definition ToPrimitive (v : Value) : Value :=
  match v with
  | VArr _ | VObj _ => VStr (ToString v)
  | _ => v
  end.

Definition ToNumber (v : Value) : number :=
  match ToPrimitive v with
  | VUndefined => NaN
  | VNull => number_of_Z 0
  | VBool true => number_of_Z 1
  | VBool false => number_of_Z 0
  | VNum n => n
  | VStr s => StringToNumber s
  | VArr _ | VObj _ => NaN
  end.

(** The abstract relational comparison: two strings compare by code units,
    anything else as numbers. *)
Definition IsLessThan (x y : Value) : option bool :=
  match ToPrimitive x, ToPrimitive y with
  | VStr a, VStr b => Some (String.ltb a b)
  | px, py => Number_lessThan (ToNumber px) (ToNumber py)
  end.

(** [x < y], [x > y], [x <= y], [x >= y] *)
Definition js_lt (x y : Value) : bool :=
  match IsLessThan x y with Some true => true | _ => false end.
Definition js_gt (x y : Value) : bool :=
  match IsLessThan y x with Some true => true | _ => false end.
Definition js_le (x y : Value) : bool :=
  match IsLessThan y x with Some false => true | _ => false end.
Definition js_ge (x y : Value) : bool :=
  match IsLessThan x y with Some false => true | _ => false end.
End Conversions.

(** Whether [ToString] completes on a value: an object must inherit its
    [toString], and an array must hold printable elements. *)
Fixpoint printable (v : Value) : bool :=
  match v with
  | VObj props =>
      match props !! "toString" with
      | None => true
      | Some _ => false
      end
  | VArr items => forallb printable items
  | _ => true
  end.

(** ** Property access

    [o.k] on a value that is neither [undefined] nor [null] (on those the
    access throws; every access of the source is behind a guard that excludes
    them).  Arrays and strings answer ["length"] and their indices. *)

Definition arrayIndex (k : string) : option nat :=
  match NilEmpty.uint_of_string k with
  | Some u =>
      let n := Nat.of_uint u in
      if String.eqb (NilZero.string_of_uint (Nat.to_uint n)) k then Some n else None
  | None => None
  end.

Definition Get (o : Value) (k : string) : Value :=
  match o with
  | VObj props => default VUndefined (props !! k)
  | VArr items =>
      if String.eqb k "length" then VNum (number_of_nat (length items))
      else match arrayIndex k with
           | Some i => default VUndefined (items !! i)
           | None => VUndefined
           end
  | VStr s =>
      if String.eqb k "length" then VNum (number_of_nat (String.length s))
      else match arrayIndex k with
           | Some i =>
               match String.get i s with
               | Some c => VStr (String c EmptyString)
               | None => VUndefined
               end
           | None => VUndefined
           end
  | _ => VUndefined
  end.

(** ** ['d2/lib/check'] *)

Module D2Check.

(** Modelled from the spec: [isInteger] of ['d2/lib/check'], which is not
    under src/.  The spec's type table gives "INTEGER: value is an integer":
    a number that is finite and whole. *)
Definition isInteger (v : Value) : bool :=
  match v with
  | VNum (Fin q) => isWhole q
  | _ => false
  end.

(** Modelled from the spec: [isNumeric] of ['d2/lib/check'], which is not
    under src/.  The spec's type table gives "NUMBER: value is numeric
    (integer or float, optionally as numeric string)": a finite number, or a
    string that spells one as a decimal literal. *)
Definition isNumeric (v : Value) : bool :=
  match v with
  | VNum n => isFinite n
  | VStr s => bool_decide (is_Some (decimalLiteral s))
  | _ => false
  end.

(** Modelled from the spec: [isArray] of ['d2/lib/check'], which is not under
    src/.  "COLLECTION: value is an ordered sequence". *)
Definition isArray (v : Value) : bool :=
  match v with VArr _ => true | _ => false end.

(** Modelled from the spec: [isString] of ['d2/lib/check'], which is not
    under src/.  "TEXT, ...: value is a string". *)
Definition isString (v : Value) : bool :=
  match v with VStr _ => true | _ => false end.

(** Modelled from the spec: [isObject] of ['d2/lib/check'], which is not
    under src/.  "COMPLEX: value is an object/mapping"; "[rule] must be a
    plain mapping/object". *)
Definition isObject (v : Value) : bool :=
  match v with VObj _ => true | _ => false end.

End D2Check.
Import D2Check.

(** ** Module state and effects *)

Record Message := { message : string; value : Value }.

Record ValidationResult := { status : bool; messages : list Message }.

Module CustomValidator.
Record t := { message : string; validator : Value -> bool }.
End CustomValidator.

(** The settled outcome of a promise. *)
Inductive Promise :=
| Resolved (body : Value)
| Rejected (reason : Value).

(** What a method can change or observe outside its arguments: the
    module-level [typeSpecificValidations] table, the calls received by the
    module-level [logger], and the requests received by the HTTP client. *)
Record Store := {
  typeSpecificValidations : gmap string (list CustomValidator.t);
  logged : list (list Value);
  posted : list (string * Value)
}.

Inductive Exn :=
| TypeError (msg : string).

Inductive Completion (A : Type) :=
| Normal (a : A)
| Throw (e : Exn).
Arguments Normal {A} a.
Arguments Throw {A} e.

Definition M (A : Type) : Type := Store -> Completion A * Store.

Definition ret {A} (a : A) : M A := fun st => (Normal a, st).

Definition throw {A} (e : Exn) : M A := fun st => (Throw e, st).

Definition bind {A B} (c : M A) (k : A -> M B) : M B :=
  fun st =>
    match c st with
    | (Normal a, st') => k a st'
    | (Throw e, st') => (Throw e, st')
    end.

Notation "'let*' x ':=' c 'in' k" := (bind c (fun x => k))
  (at level 10, x name, c at level 100, k at level 200).

Definition add_logged (args : list Value) (st : Store) : Store :=
  {| typeSpecificValidations := typeSpecificValidations st;
     logged := logged st ++ [args];
     posted := posted st |}.

Definition add_posted (path : string) (body : Value) (st : Store) : Store :=
  {| typeSpecificValidations := typeSpecificValidations st;
     logged := logged st;
     posted := posted st ++ [(path, body)] |}.

(** [logger.log(...args)] *)
Definition logger_log (args : list Value) : M unit :=
  fun st => (Normal tt, add_logged args st).

(** Reading the module-level table. *)
Definition read_typeSpecificValidations : M (gmap string (list CustomValidator.t)) :=
  fun st => (Normal (typeSpecificValidations st), st).

(** ** The source file *)

Section ModelValidation.
Context {host : Host}.

(** [phoneNumberRegEx = /^[0-9\+ ]+$/]: one or more characters, each a
    digit, a plus or a space, from the start of the input to its end. *)
Definition phoneNumberChar (c : ascii) : bool :=
  bool_decide (is_Some (digitValue c)) || Ascii.eqb c "+" || Ascii.eqb c " ".

Definition phoneNumberRegEx_test (s : string) : bool :=
  negb (String.eqb s "") && forallb phoneNumberChar (String.list_ascii_of_string s).

(** [RegExp.prototype.test] converts its argument to a string. *)
Definition phoneNumber (value : Value) : bool :=
  phoneNumberRegEx_test (ToString value).

(** The value [typeSpecificValidations] is initialised with. *)
Definition typeSpecificValidations_init : gmap string (list CustomValidator.t) :=
  {[ "PHONENUMBER" :=
       [ {| CustomValidator.message :=
              "Phone number can only consist of numbers and + and [space]";
            CustomValidator.validator := phoneNumber |} ] ]}.

(** The store of the loaded module, whatever was logged and posted since. *)
Definition loaded (lg : list (list Value)) (ps : list (string * Value)) : Store :=
  {| typeSpecificValidations := typeSpecificValidations_init;
     logged := lg;
     posted := ps |}.

Definition typeValidation (value type : Value) : M bool :=
  if IsStrictlyEqual type (VStr "INTEGER") then ret (isInteger value)
  else if IsStrictlyEqual type (VStr "NUMBER") then ret (isNumeric value)
  else if IsStrictlyEqual type (VStr "COLLECTION") then ret (isArray value)
  else if IsStrictlyEqual type (VStr "PHONENUMBER")
       || IsStrictlyEqual type (VStr "EMAIL")
       || IsStrictlyEqual type (VStr "URL")
       || IsStrictlyEqual type (VStr "COLOR")
       || IsStrictlyEqual type (VStr "PASSWORD")
       || IsStrictlyEqual type (VStr "IDENTIFIER")
       || IsStrictlyEqual type (VStr "TEXT") then ret (isString value)
  else if IsStrictlyEqual type (VStr "COMPLEX") then ret (isObject value)
  else if IsStrictlyEqual type (VStr "DATE")
       || IsStrictlyEqual type (VStr "REFERENCE")
       || IsStrictlyEqual type (VStr "BOOLEAN")
       || IsStrictlyEqual type (VStr "CONSTANT") then ret true
  else
    let* _ := logger_log [VStr "No type validator found for"; type] in
    ret false.

Definition isLargerThanMin (value minValue : Value) : bool :=
  if isNumeric minValue then js_ge value minValue else true.

Definition isSmallerThanMax (value maxValue : Value) : bool :=
  if isNumeric maxValue then js_le value maxValue else true.

Definition isLargerThanLength (value minValue : Value) : bool :=
  if negb (isInteger minValue) then true
  else ToBoolean value
       && isInteger (Get value "length")
       && js_ge (Get value "length") minValue.

Definition isSmallerThanLength (value maxValue : Value) : bool :=
  if negb (isInteger maxValue) then true
  else ToBoolean value
       && isInteger (Get value "length")
       && js_le (Get value "length") maxValue.

(** [result.status = false; result.messages.push({message: text, value})] *)
Definition fail (result : ValidationResult) (text : string) (value : Value)
  : ValidationResult :=
  {| status := false;
     messages := messages result ++ [ {| message := text; value := value |} ] |}.

Definition numberMinMaxValidation (value validationSettings : Value)
  : ValidationResult :=
  let resultStatus := {| status := true; messages := [] |} in
  if isNumeric value then
    let resultStatus :=
      if negb (isLargerThanMin value (Get validationSettings "min"))
      then fail resultStatus
             (Array_join " " [VStr "Value needs to be larger than or equal to";
                              Get validationSettings "min"]) value
      else resultStatus in
    let resultStatus :=
      if negb (isSmallerThanMax value (Get validationSettings "max"))
      then fail resultStatus
             (Array_join " " [VStr "Value needs to be smaller than or equal to";
                              Get validationSettings "max"]) value
      else resultStatus in
    resultStatus
  else resultStatus.

Definition lengthMinMaxValidation (value validationSettings : Value)
  : ValidationResult :=
  let resultStatus := {| status := true; messages := [] |} in
  if isArray value || isString value then
    let resultStatus :=
      if negb (isLargerThanLength value (Get validationSettings "min"))
      then fail resultStatus
             (Array_join " " [VStr "Value needs to be longer than or equal to";
                              Get validationSettings "min"]) value
      else resultStatus in
    let resultStatus :=
      if negb (isSmallerThanLength value (Get validationSettings "max"))
      then fail resultStatus
             (Array_join " " [VStr "Value needs to be shorter than or equal to";
                              Get validationSettings "max"]) value
      else resultStatus in
    resultStatus
  else resultStatus.

Definition minMaxValidation (result : ValidationResult)
           (value validationSettings : Value) : ValidationResult :=
  let numberMinMaxValidationStatus := numberMinMaxValidation value validationSettings in
  let result :=
    if negb (status numberMinMaxValidationStatus)
    then {| status := false;
            messages := messages result ++ messages numberMinMaxValidationStatus |}
    else result in
  let lengthMinMaxValidationStatus := lengthMinMaxValidation value validationSettings in
  let result :=
    if negb (status lengthMinMaxValidationStatus)
    then {| status := false;
            messages := messages result ++ messages lengthMinMaxValidationStatus |}
    else result in
  result.

(** One step of the [reduce] callback of [typeSpecificValidation]: the
    accumulator is [currentValidationStatus], and the callback pushes on
    [result.messages] as it goes. *)
Definition customValidatorStep (value : Value)
           (acc : bool * ValidationResult) (customValidator : CustomValidator.t)
  : bool * ValidationResult :=
  let '(currentValidationStatus, result) := acc in
  if negb (CustomValidator.validator customValidator value)
  then (false,
        {| status := status result;
           messages := messages result
                       ++ [ {| message := CustomValidator.message customValidator;
                               value := value |} ] |})
  else (currentValidationStatus, result).

(** The function mutates [result]; the embedding answers the [result] object
    as the call leaves it.  [typeSpecificValidations[valueType]] converts
    [valueType] to a property key; a key without an entry gives [undefined]
    or a member inherited from [Object.prototype], neither of which is an
    array. *)
Definition typeSpecificValidation (result : ValidationResult)
           (value valueType : Value) : M ValidationResult :=
  if negb (ToBoolean valueType) then ret result
  else
    let* table := read_typeSpecificValidations in
    match table !! ToString valueType with
    | None => ret result
    | Some validators =>
        let '(finalStatus, result) :=
          fold_left (customValidatorStep value) validators (true, result) in
        ret {| status := finalStatus; messages := messages result |}
    end.

Definition validate (validationSettings value : Value) : M ValidationResult :=
  if negb (isObject validationSettings)
  then throw (TypeError "validationSettings should be of type object")
  else
    let result := {| status := true; messages := [] |} in
    if IsStrictlyEqual (Get validationSettings "required") (VBool false)
       && negb (ToBoolean value)
    then ret {| status := true; messages := [] |}
    else
      let* typeOk := typeValidation value (Get validationSettings "type") in
      let result :=
        if negb typeOk then fail result "This is not a valid type" value
        else result in
      let result := minMaxValidation result value validationSettings in
      let* result :=
        typeSpecificValidation result value (Get validationSettings "type") in
      ret result.

(** [a && b] answers [a] when [a] is falsy and [b] otherwise. *)
Definition js_and (a b : Value) : Value := if ToBoolean a then b else a.

(** The collaborators of [validateAgainstSchema], both defined outside src/:
    [ModelDefinition.prototype.getOwnedPropertyJSON], called on
    [model.modelDefinition] with the model, and the answer of the server
    behind [Api.getApi().post(path, body)]. *)
Context (getOwnedPropertyJSON : Value -> Value -> Value)
        (Api_post_response : string -> Value -> Promise).

(** [Api.getApi().post(path, body)]: one request, answered by the server. *)
Definition Api_post (path : string) (body : Value) : M Promise :=
  fun st => (Normal (Api_post_response path body), add_posted path body st).

(** [Promise.reject(reason)] *)
Definition Promise_reject (reason : Value) : Promise := Rejected reason.

Definition validateAgainstSchema (model : Value) : M Promise :=
  if negb (ToBoolean
             (js_and (js_and model (Get model "modelDefinition"))
                     (Get (Get model "modelDefinition") "name")))
  then ret (Promise_reject (VStr "model.modelDefinition.name can not be found"))
  else
    Api_post
      (Array_join "/" [VStr "schemas"; Get (Get model "modelDefinition") "name"])
      (getOwnedPropertyJSON (Get model "modelDefinition") model).

End ModelValidation.

(** ** Names used by the statements *)

(** The tags [typeValidation] has a case for. *)
Definition TypeTag : list string :=
  [ "INTEGER"; "NUMBER"; "COLLECTION"; "PHONENUMBER"; "EMAIL"; "URL"; "COLOR";
    "PASSWORD"; "IDENTIFIER"; "TEXT"; "COMPLEX"; "DATE"; "REFERENCE"; "BOOLEAN";
    "CONSTANT" ].

(** An object literal, its keys distinct. *)
Definition object (fields : list (string * Value)) : Value :=
  VObj (list_to_map fields).

Definition Num (z : Z) : Value := VNum (number_of_Z z).

(** The result a passed validation answers. *)
Definition passed : ValidationResult := {| status := true; messages := [] |}.

Definition typeMessage (value : Value) : Message :=
  {| message := "This is not a valid type"; value := value |}.

Definition isTypeMessage (m : Message) : bool :=
  String.eqb (message m) "This is not a valid type".

(** The message of the phone-number validator. *)
Definition phoneMessage (value : Value) : Message :=
  {| message := "Phone number can only consist of numbers and + and [space]";
     value := value |}.

(** Whether the [switch] of [typeValidation] has a case for [type]: the
    labels are compared with [===], so only a string can match one. *)
Definition knownTag (type : Value) : bool :=
  match type with
  | VStr s => bool_decide (s ∈ TypeTag)
  | _ => false
  end.

(** The condition of the short-circuit of [validate]. *)
Definition shortCircuits (validationSettings value : Value) : bool :=
  IsStrictlyEqual (Get validationSettings "required") (VBool false)
  && negb (ToBoolean value).

(** The validators [typeSpecificValidation] runs for a type: the entry of the
    table, when the type is truthy and has one. *)
Definition validatorsFor {host : Host} (st : Store) (valueType : Value)
  : option (list CustomValidator.t) :=
  if ToBoolean valueType then typeSpecificValidations st !! ToString valueType
  else None.

(** The messages of the validators that reject [value], in table order. *)
Definition customMessages (value : Value) (validators : list CustomValidator.t)
  : list Message :=
  List.map
    (fun customValidator =>
       {| message := CustomValidator.message customValidator; value := value |})
    (List.filter
       (fun customValidator => negb (CustomValidator.validator customValidator value))
       validators).

(** A host to run closed examples on; none of them reaches either field. *)
Definition exampleHost : Host :=
  {| Number_toString_other := fun _ => "";
     StringToNumber_other := fun _ => NaN |}.

(** What [validate] does once past its guard and its short-circuit: the body
    of the method from the call of [typeValidation] on. *)
Definition checks {host : Host} (validationSettings value : Value)
  : M ValidationResult :=
  let* typeOk := typeValidation value (Get validationSettings "type") in
  typeSpecificValidation
    (minMaxValidation
       (if negb typeOk then fail passed "This is not a valid type" value else passed)
       value validationSettings)
    value (Get validationSettings "type").

(** * Properties *)

(** ** Effects of the helpers *)

Section Effects.
Context {host : Host}.

(** [typeValidation] never throws; it leaves the store alone or adds one
    diagnostic to the logger. *)
Lemma typeValidation_run (value type : Value) (st : Store) :
  (exists b, typeValidation value type st = (Normal b, st))
  \/ typeValidation value type st
     = (Normal false, add_logged [VStr "No type validator found for"; type] st).
Proof.
  unfold typeValidation.
  repeat match goal with
         | |- context [IsStrictlyEqual type ?t] =>
             destruct (IsStrictlyEqual type t); cbn [orb];
             [ left; eexists; reflexivity | ]
         end.
  right. reflexivity.
Qed.

(** Its answer does not depend on the store. *)
Lemma typeValidation_store (value type : Value) (st st' : Store) :
  (typeValidation value type st).1 = (typeValidation value type st').1.
Proof.
  unfold typeValidation.
  repeat match goal with
         | |- context [IsStrictlyEqual type ?t] =>
             destruct (IsStrictlyEqual type t); cbn [orb]; [ reflexivity | ]
         end.
  reflexivity.
Qed.

(** [typeSpecificValidation] never throws and leaves the store alone. *)
Lemma typeSpecificValidation_run (result : ValidationResult)
      (value valueType : Value) (st : Store) :
  exists r, typeSpecificValidation result value valueType st = (Normal r, st).
Proof.
  unfold typeSpecificValidation.
  destruct (negb (ToBoolean valueType)); [ eexists; reflexivity | ].
  unfold bind, read_typeSpecificValidations.
  destruct (typeSpecificValidations st !! ToString valueType) as [validators|];
    [ | eexists; reflexivity ].
  destruct (fold_left _ _ _) as [finalStatus result']. eexists; reflexivity.
Qed.

(** Its answer depends on the store through the table only. *)
Lemma typeSpecificValidation_table (result : ValidationResult)
      (value valueType : Value) (st st' : Store) :
  typeSpecificValidations st = typeSpecificValidations st' ->
  (typeSpecificValidation result value valueType st).1
  = (typeSpecificValidation result value valueType st').1.
Proof.
  intros Htable. unfold typeSpecificValidation.
  destruct (negb (ToBoolean valueType)); [ reflexivity | ].
  unfold bind, read_typeSpecificValidations. rewrite Htable.
  destruct (typeSpecificValidations st' !! ToString valueType); [ | reflexivity ].
  destruct (fold_left _ _ _). reflexivity.
Qed.

Lemma validate_unfold (validationSettings value : Value) (st : Store) :
  validate validationSettings value st =
  if negb (isObject validationSettings)
  then (Throw (TypeError "validationSettings should be of type object"), st)
  else if IsStrictlyEqual (Get validationSettings "required") (VBool false)
          && negb (ToBoolean value)
       then (Normal passed, st)
       else checks validationSettings value st.
Proof.
  unfold validate, checks.
  destruct (negb (isObject validationSettings)); [ reflexivity | ].
  destruct (_ && _); [ reflexivity | ].
  unfold bind.
  destruct (typeValidation _ _ _) as [[typeOk|e] st1]; [ | reflexivity ].
  destruct (typeSpecificValidation _ _ _ _) as [[r|e] st2]; reflexivity.
Qed.

Lemma checks_run (validationSettings value : Value) (st : Store) :
  exists r st',
    checks validationSettings value st = (Normal r, st')
    /\ (st' = st
        \/ st' = add_logged [VStr "No type validator found for";
                             Get validationSettings "type"] st).
Proof.
  unfold checks, bind.
  destruct (typeValidation_run value (Get validationSettings "type") st)
    as [[b ->] | ->];
    match goal with
    | |- context [typeSpecificValidation ?res ?v ?t ?s] =>
        destruct (typeSpecificValidation_run res v t s) as [r ->]
    end;
    eexists r, _; split; [ reflexivity | auto | reflexivity | auto ].
Qed.

Lemma checks_table (validationSettings value : Value) (st st' : Store) :
  typeSpecificValidations st = typeSpecificValidations st' ->
  (checks validationSettings value st).1 = (checks validationSettings value st').1.
Proof.
  intros Htable. unfold checks, bind.
  pose proof (typeValidation_store value (Get validationSettings "type") st st')
    as Hsame.
  destruct (typeValidation_run value (Get validationSettings "type") st)
    as [[b Hst] | Hst];
    destruct (typeValidation_run value (Get validationSettings "type") st')
      as [[b' Hst'] | Hst'];
    rewrite Hst, Hst' in Hsame |- *; cbn [fst] in Hsame;
    try (injection Hsame as Hb; subst);
    apply typeSpecificValidation_table; cbn; exact Htable.
Qed.

(** [validate] leaves the table and the HTTP client alone. *)
Lemma validate_store (validationSettings value : Value) (st : Store) :
  typeSpecificValidations (validate validationSettings value st).2
  = typeSpecificValidations st
  /\ posted (validate validationSettings value st).2 = posted st.
Proof.
  rewrite validate_unfold.
  destruct (negb (isObject validationSettings)); [ auto | ].
  destruct (_ && _); [ auto | ].
  destruct (checks_run validationSettings value st) as (r & st' & -> & [-> | ->]);
    auto.
Qed.

End Effects.

(** ** The guard and the short-circuit of [validate] *)

Section Guard.
Context {host : Host}.

(** C3.  For a rule with [required === false] and a falsy value, [validate]
    answers [{status: true, messages: []}] at once, whatever the rule's
    [type], [min] and [max]: the store is as it was, so no check has logged
    anything. *)
Theorem validate_not_required_falsy (validationSettings value : Value) (st : Store) :
  isObject validationSettings = true ->
  Get validationSettings "required" = VBool false ->
  ToBoolean value = false ->
  validate validationSettings value st
  = (Normal {| status := true; messages := [] |}, st).
Proof.
  intros Hobject Hrequired Hfalsy.
  rewrite validate_unfold, Hobject, Hrequired, Hfalsy. reflexivity.
Qed.


(** C9.  A second call of [validate] with the same arguments, made in the
    store the first call left, gives the same completion as the first; and
    the first call leaves the table of type-specific validators and the HTTP
    client as they were. *)
Theorem validate_repeatable (validationSettings value : Value) (st : Store) :
  (validate validationSettings value (validate validationSettings value st).2).1
  = (validate validationSettings value st).1
  /\ typeSpecificValidations (validate validationSettings value st).2
     = typeSpecificValidations st
  /\ posted (validate validationSettings value st).2 = posted st.
Proof.
  destruct (validate_store validationSettings value st) as [Htable Hposted].
  split; [ | auto ].
  revert Htable. generalize (validate validationSettings value st).2 as st'.
  intros st' Htable. rewrite !validate_unfold.
  destruct (negb (isObject validationSettings)); [ reflexivity | ].
  destruct (_ && _); [ reflexivity | ].
  apply checks_table. exact Htable.
Qed.

End Guard.

(** ** Comparisons of numeric values *)

Section Comparisons.
Context {host : Host}.

(** An array prints as its elements joined by commas. *)
Lemma ToString_array (items : list Value) :
  ToString (VArr items) = Array_join "," items.
Proof.
  induction items as [ | x rest IH ]; [ reflexivity | ].
  destruct rest as [ | y rest ]; [ reflexivity | ].
  change (joinElement x ++ "," ++ ToString (VArr (y :: rest))
          = joinElement x ++ "," ++ Array_join "," (y :: rest)).
  rewrite IH. reflexivity.
Qed.

(** A numeric value is its own primitive and converts to a finite number. *)
Lemma isNumeric_ToNumber (v : Value) :
  isNumeric v = true -> ToPrimitive v = v /\ exists q, ToNumber v = Fin q.
Proof.
  destruct v as [ | | | n | s | | ]; try discriminate; cbn.
  - destruct n; try discriminate. eauto.
  - intros Hliteral. apply bool_decide_eq_true in Hliteral as [q Hq].
    unfold StringToNumber. rewrite Hq. eauto.
Qed.

Lemma IsLessThan_numeric (a b : Value) :
  isNumeric a = true -> isNumeric b = true ->
  exists r, IsLessThan a b = Some r.
Proof.
  intros Ha Hb. unfold IsLessThan.
  destruct (isNumeric_ToNumber a Ha) as [-> [qa Hqa]].
  destruct (isNumeric_ToNumber b Hb) as [-> [qb Hqb]].
  destruct a as [ | | | na | sa | | ]; try discriminate;
    destruct b as [ | | | nb | sb | | ]; try discriminate;
    rewrite ?Hqa, ?Hqb; cbn; eauto.
Qed.

(** On numeric operands [>=] is the negation of [<], and [<=] of [>]. *)
Lemma js_ge_numeric (a b : Value) :
  isNumeric a = true -> isNumeric b = true -> js_ge a b = negb (js_lt a b).
Proof.
  intros Ha Hb. unfold js_ge, js_lt.
  destruct (IsLessThan_numeric a b Ha Hb) as [[] ->]; reflexivity.
Qed.

Lemma js_le_numeric (a b : Value) :
  isNumeric a = true -> isNumeric b = true -> js_le a b = negb (js_gt a b).
Proof.
  intros Ha Hb. unfold js_le, js_gt.
  destruct (IsLessThan_numeric b a Hb Ha) as [[] ->]; reflexivity.
Qed.

Lemma isInteger_isNumeric (v : Value) : isInteger v = true -> isNumeric v = true.
Proof.
  destruct v as [ | | | [ | | q] | | | ]; try discriminate. reflexivity.
Qed.

Lemma isInteger_number_of_nat (n : nat) : isInteger (VNum (number_of_nat n)) = true.
Proof.
  cbn. unfold isWhole. rewrite Qfloor_Z. apply Qeq_bool_iff. reflexivity.
Qed.

(** The text [[text, bound].join(' ')] when [bound] is numeric. *)
Lemma join_numeric_bound (text : string) (bound : Value) :
  isNumeric bound = true ->
  Array_join " " [VStr text; bound] = text ++ " " ++ ToString bound.
Proof.
  destruct bound; try discriminate; reflexivity.
Qed.

End Comparisons.

(** ** The bounds checks *)

Section Bounds.
Context {host : Host}.

(** C5.  [numberMinMaxValidation] applies to numeric values only; on one it
    fails with the "larger" message when [min] is numeric and [value < min],
    and with the "smaller" message when [max] is numeric and [value > max].
    With [{type: 'NUMBER', min: 5, max: 10}], [validate] answers [12] with
    status [false] and the one message of the upper bound, and [7] with
    status [true]. *)
Theorem numeric_bounds :
  (forall value validationSettings : Value,
      numberMinMaxValidation value validationSettings =
      if isNumeric value then
        let min := Get validationSettings "min" in
        let max := Get validationSettings "max" in
        let belowMin := isNumeric min && js_lt value min in
        let aboveMax := isNumeric max && js_gt value max in
        {| status := negb (belowMin || aboveMax);
           messages :=
             (if belowMin
              then [ {| message := "Value needs to be larger than or equal to "
                                   ++ ToString min;
                        value := value |} ]
              else [])
             ++ (if aboveMax
                 then [ {| message := "Value needs to be smaller than or equal to "
                                      ++ ToString max;
                           value := value |} ]
                 else []) |}
      else {| status := true; messages := [] |})
  /\ (forall lg ps,
         validate (object [("type", VStr "NUMBER"); ("min", Num 5); ("max", Num 10)])
                  (Num 12) (loaded lg ps)
         = (Normal
              {| status := false;
                 messages :=
                   [ {| message := "Value needs to be smaller than or equal to 10";
                        value := Num 12 |} ] |},
            loaded lg ps))
  /\ (forall lg ps,
         validate (object [("type", VStr "NUMBER"); ("min", Num 5); ("max", Num 10)])
                  (Num 7) (loaded lg ps)
         = (Normal {| status := true; messages := [] |}, loaded lg ps)).
Proof.
  split; [ | split; intros lg ps; reflexivity ].
  intros value validationSettings. unfold numberMinMaxValidation.
  destruct (isNumeric value) eqn:Hvalue; [ | reflexivity ].
  unfold isLargerThanMin, isSmallerThanMax, fail. cbn zeta.
  destruct (isNumeric (Get validationSettings "min")) eqn:Hmin;
    destruct (isNumeric (Get validationSettings "max")) eqn:Hmax;
    rewrite ?js_ge_numeric, ?js_le_numeric, ?negb_involutive by assumption;
    cbn [andb negb];
    repeat match goal with
           | |- context [js_lt ?a ?b] => destruct (js_lt a b)
           | |- context [js_gt ?a ?b] => destruct (js_gt a b)
           end;
    cbn [status messages app orb negb];
    rewrite ?join_numeric_bound by assumption; reflexivity.
Qed.

(** [lengthMinMaxValidation] on an array or on a string that is not empty:
    it fails with the "longer" message when [min] is an integer above the
    length, and with the "shorter" message when [max] is an integer below
    it. *)
Lemma lengthMinMaxValidation_truthy (value validationSettings : Value) :
  isArray value || isString value = true ->
  ToBoolean value = true ->
  lengthMinMaxValidation value validationSettings =
  let min := Get validationSettings "min" in
  let max := Get validationSettings "max" in
  let tooShort := isInteger min && js_lt (Get value "length") min in
  let tooLong := isInteger max && js_gt (Get value "length") max in
  {| status := negb (tooShort || tooLong);
     messages :=
       (if tooShort
        then [ {| message := "Value needs to be longer than or equal to "
                             ++ ToString min;
                  value := value |} ]
        else [])
       ++ (if tooLong
           then [ {| message := "Value needs to be shorter than or equal to "
                                ++ ToString max;
                     value := value |} ]
           else []) |}.
Proof.
  intros Hsequence Htruthy. unfold lengthMinMaxValidation. rewrite Hsequence.
  assert (isInteger (Get value "length") = true) as Hlength.
  { destruct value; try discriminate; apply isInteger_number_of_nat. }
  unfold isLargerThanLength, isSmallerThanLength, fail. cbn zeta.
  rewrite Htruthy, Hlength. cbn [andb].
  destruct (isInteger (Get validationSettings "min")) eqn:Hmin;
    destruct (isInteger (Get validationSettings "max")) eqn:Hmax;
    cbn [andb negb];
    rewrite ?js_ge_numeric, ?js_le_numeric, ?negb_involutive
      by (apply isInteger_isNumeric; assumption);
    repeat match goal with
           | |- context [js_lt ?a ?b] => destruct (js_lt a b)
           | |- context [js_gt ?a ?b] => destruct (js_gt a b)
           end;
    cbn [status messages app orb negb];
    rewrite ?join_numeric_bound by (apply isInteger_isNumeric; assumption);
    reflexivity.
Qed.

(** C4, at the empty string.  With [max: 5] the length check rejects [""],
    whose length [0] is not above [5], and says it must be shorter; the empty
    array, of the same length, passes.  [validate] reports the failure. *)
Theorem empty_string_fails_length_bounds :
  lengthMinMaxValidation (VStr "") (object [("max", Num 5)])
  = {| status := false;
       messages :=
         [ {| message := "Value needs to be shorter than or equal to 5";
              value := VStr "" |} ] |}
  /\ js_gt (Get (VStr "") "length") (Num 5) = false
  /\ lengthMinMaxValidation (VArr []) (object [("max", Num 5)])
     = {| status := true; messages := [] |}
  /\ forall lg ps,
      validate (object [("type", VStr "TEXT"); ("max", Num 5)]) (VStr "")
               (loaded lg ps)
      = (Normal
           {| status := false;
              messages :=
                [ {| message := "Value needs to be shorter than or equal to 5";
                     value := VStr "" |} ] |},
         loaded lg ps).
Proof.
  repeat split; reflexivity.
Qed.

End Bounds.

(** ** How the checks compose *)

Section Composition.
Context {host : Host}.

Lemma numberMinMaxValidation_passed (value validationSettings : Value) :
  status (numberMinMaxValidation value validationSettings) = true ->
  messages (numberMinMaxValidation value validationSettings) = [].
Proof.
  unfold numberMinMaxValidation.
  destruct (isNumeric value); [ | reflexivity ].
  destruct (negb (isLargerThanMin _ _)), (negb (isSmallerThanMax _ _));
    cbn; (discriminate || reflexivity).
Qed.

Lemma lengthMinMaxValidation_passed (value validationSettings : Value) :
  status (lengthMinMaxValidation value validationSettings) = true ->
  messages (lengthMinMaxValidation value validationSettings) = [].
Proof.
  unfold lengthMinMaxValidation.
  destruct (isArray value || isString value); [ | reflexivity ].
  destruct (negb (isLargerThanLength _ _)), (negb (isSmallerThanLength _ _));
    cbn; (discriminate || reflexivity).
Qed.

(** No bounds message reads as the type message. *)
Lemma numberMinMaxValidation_no_type_message (value validationSettings : Value) :
  List.filter isTypeMessage (messages (numberMinMaxValidation value validationSettings))
  = [].
Proof.
  unfold numberMinMaxValidation.
  destruct (isNumeric value); [ | reflexivity ].
  destruct (negb (isLargerThanMin _ _)), (negb (isSmallerThanMax _ _));
    reflexivity.
Qed.

Lemma lengthMinMaxValidation_no_type_message (value validationSettings : Value) :
  List.filter isTypeMessage (messages (lengthMinMaxValidation value validationSettings))
  = [].
Proof.
  unfold lengthMinMaxValidation.
  destruct (isArray value || isString value); [ | reflexivity ].
  destruct (negb (isLargerThanLength _ _)), (negb (isSmallerThanLength _ _));
    reflexivity.
Qed.

(** [minMaxValidation] only ever lowers the status, and appends the messages
    of the numeric check, then those of the length check. *)
Lemma minMaxValidation_unfold (result : ValidationResult)
      (value validationSettings : Value) :
  minMaxValidation result value validationSettings =
  {| status := status result
               && status (numberMinMaxValidation value validationSettings)
               && status (lengthMinMaxValidation value validationSettings);
     messages := messages result
                 ++ messages (numberMinMaxValidation value validationSettings)
                 ++ messages (lengthMinMaxValidation value validationSettings) |}.
Proof.
  unfold minMaxValidation.
  pose proof (numberMinMaxValidation_passed value validationSettings) as Hnumber.
  pose proof (lengthMinMaxValidation_passed value validationSettings) as Hlength.
  destruct (status (numberMinMaxValidation value validationSettings));
    destruct (status (lengthMinMaxValidation value validationSettings));
    rewrite ?Hnumber, ?Hlength by reflexivity;
    destruct result as [s ms]; cbn [negb status messages];
    rewrite ?app_nil_r, ?andb_true_r, ?andb_false_r, <- ?app_assoc;
    reflexivity.
Qed.

(** A tag outside [TypeTag] reaches the [default] case of the [switch]. *)
Lemma typeValidation_unknown (value : Value) (s : string) (st : Store) :
  s ∉ TypeTag ->
  typeValidation value (VStr s) st
  = (Normal false, add_logged [VStr "No type validator found for"; VStr s] st).
Proof.
  intros Hunknown.
  assert (forall t, t ∈ TypeTag -> String.eqb s t = false) as Hne.
  { intros t Ht. apply String.eqb_neq. intros ->. contradiction. }
  unfold typeValidation. cbn [IsStrictlyEqual].
  rewrite !Hne by (unfold TypeTag; repeat constructor).
  reflexivity.
Qed.

(** Without an entry in the table, [typeSpecificValidation] changes nothing. *)
Lemma typeSpecificValidation_unregistered (result : ValidationResult)
      (value valueType : Value) (st : Store) :
  typeSpecificValidations st !! ToString valueType = None ->
  typeSpecificValidation result value valueType st = (Normal result, st).
Proof.
  intros Hnone. unfold typeSpecificValidation.
  destruct (negb (ToBoolean valueType)); [ reflexivity | ].
  unfold bind, read_typeSpecificValidations. rewrite Hnone. reflexivity.
Qed.

(** The [reduce] of [typeSpecificValidation]: the accumulator ends as the
    conjunction of the validators, and every rejecting validator has pushed
    its message. *)
Lemma fold_customValidatorStep (value : Value) (validators : list CustomValidator.t)
      (current : bool) (result : ValidationResult) :
  fold_left (customValidatorStep value) validators (current, result)
  = (current
     && forallb (fun customValidator => CustomValidator.validator customValidator value)
                validators,
     {| status := status result;
        messages := messages result ++ customMessages value validators |}).
Proof.
  revert current result.
  induction validators as [ | customValidator validators IH ];
    intros current result.
  - destruct result. cbn. rewrite andb_true_r, app_nil_r. reflexivity.
  - cbn [fold_left]. unfold customValidatorStep at 2, customMessages.
    cbn [List.filter forallb].
    destruct (CustomValidator.validator customValidator value);
      cbn [negb List.map]; rewrite IH; unfold customMessages;
      cbn [status messages andb].
    + reflexivity.
    + rewrite andb_false_r, <- app_assoc. reflexivity.
Qed.

(** With an entry in the table, [typeSpecificValidation] replaces the status
    by the conjunction of the validators of the entry. *)
Lemma typeSpecificValidation_result (result : ValidationResult)
      (value valueType : Value) (st : Store) :
  typeSpecificValidation result value valueType st
  = (Normal
       match validatorsFor st valueType with
       | Some validators =>
           {| status :=
                forallb (fun customValidator =>
                           CustomValidator.validator customValidator value)
                        validators;
              messages := messages result ++ customMessages value validators |}
       | None => result
       end,
     st).
Proof.
  unfold typeSpecificValidation, validatorsFor.
  destruct (ToBoolean valueType); [ | reflexivity ].
  cbn [negb]. unfold bind, read_typeSpecificValidations.
  destruct (typeSpecificValidations st !! ToString valueType) as [validators | ];
    [ | reflexivity ].
  rewrite fold_customValidatorStep. reflexivity.
Qed.

(** The result of the checks of [validate].  The messages are those of the
    type check, of the numeric bounds, of the length bounds and of the
    type-specific validators, in this order.  The status is the conjunction of
    the first three outcomes when the type has no type-specific validators,
    and the outcome of these validators alone when it has. *)
Lemma checks_result (validationSettings value : Value) (st : Store) :
  exists (typeOk : bool) (st' : Store),
    typeValidation value (Get validationSettings "type") st = (Normal typeOk, st')
    /\ typeSpecificValidations st' = typeSpecificValidations st
    /\ checks validationSettings value st
       = (Normal
            {| status :=
                 match validatorsFor st (Get validationSettings "type") with
                 | Some validators =>
                     forallb (fun customValidator =>
                                CustomValidator.validator customValidator value)
                             validators
                 | None =>
                     typeOk
                     && status (numberMinMaxValidation value validationSettings)
                     && status (lengthMinMaxValidation value validationSettings)
                 end;
               messages :=
                 (if typeOk then [] else [typeMessage value])
                 ++ messages (numberMinMaxValidation value validationSettings)
                 ++ messages (lengthMinMaxValidation value validationSettings)
                 ++ match validatorsFor st (Get validationSettings "type") with
                    | Some validators => customMessages value validators
                    | None => []
                    end |},
          st').
Proof.
  unfold checks, bind.
  destruct (typeValidation_run value (Get validationSettings "type") st)
    as [[typeOk Hrun] | Hrun]; rewrite Hrun;
    [ exists typeOk, st | eexists false, _ ];
    (split; [ reflexivity | ]); (split; [ reflexivity | ]);
    rewrite typeSpecificValidation_result, minMaxValidation_unfold;
    unfold validatorsFor; cbn [typeSpecificValidations add_logged];
    destruct (if ToBoolean (Get validationSettings "type")
              then typeSpecificValidations st !! ToString (Get validationSettings "type")
              else None) as [validators | ];
    try destruct typeOk;
    cbn [negb status messages fail passed andb app];
    rewrite <- ?app_assoc, ?app_nil_r; reflexivity.
Qed.

(** C1, at a phone number that is too short.  With
    [{type: 'PHONENUMBER', min: 5}] and ["1 2"], the length check sets the
    status to [false] and adds its message; [typeSpecificValidation] then
    assigns the status anew, and the result has status [true] next to one
    message. *)
Theorem status_reset_after_failed_bound :
  forall lg ps,
    let validationSettings := object [("type", VStr "PHONENUMBER"); ("min", Num 5)] in
    let value := VStr "1 2" in
    minMaxValidation {| status := true; messages := [] |} value validationSettings
    = {| status := false;
         messages :=
           [ {| message := "Value needs to be longer than or equal to 5";
                value := value |} ] |}
    /\ validate validationSettings value (loaded lg ps)
       = (Normal
            {| status := true;
               messages :=
                 [ {| message := "Value needs to be longer than or equal to 5";
                      value := value |} ] |},
          loaded lg ps).
Proof.
  intros lg ps. split; reflexivity.
Qed.

(** C2, at a phone number that is too long.  With
    [{type: 'PHONENUMBER', max: 3}] and ["+47 123"], the type check passes,
    the bounds check fails and the type-specific check passes; the final
    status is [true], not their conjunction. *)
Theorem status_is_not_the_conjunction :
  forall lg ps,
    let validationSettings := object [("type", VStr "PHONENUMBER"); ("max", Num 3)] in
    let value := VStr "+47 123" in
    typeValidation value (Get validationSettings "type") (loaded lg ps)
    = (Normal true, loaded lg ps)
    /\ status (minMaxValidation {| status := true; messages := [] |}
                                value validationSettings) = false
    /\ typeSpecificValidation {| status := true; messages := [] |}
                              value (Get validationSettings "type") (loaded lg ps)
       = (Normal {| status := true; messages := [] |}, loaded lg ps)
    /\ validate validationSettings value (loaded lg ps)
       = (Normal
            {| status := true;
               messages :=
                 [ {| message := "Value needs to be shorter than or equal to 3";
                      value := value |} ] |},
          loaded lg ps).
Proof.
  intros lg ps. repeat split; reflexivity.
Qed.

End Composition.

(** ** [validateAgainstSchema] *)

Section Schema.
Context {host : Host}
        (getOwnedPropertyJSON : Value -> Value -> Value)
        (Api_post_response : string -> Value -> Promise).

Lemma ToBoolean_js_and (a b : Value) :
  ToBoolean (js_and a b) = ToBoolean a && ToBoolean b.
Proof.
  unfold js_and. destruct (ToBoolean a) eqn:Ha; [ reflexivity | exact Ha ].
Qed.


End Schema.

(** ** Diagnostics and the store *)

Section Diagnostics.
Context {host : Host}.

Lemma typeValidation_known (value type : Value) (st : Store) :
  knownTag type = true ->
  exists b, typeValidation value type st = (Normal b, st).
Proof.
  destruct type as [ | | | | s | | ]; try discriminate. cbn [knownTag].
  intros Hin. apply bool_decide_eq_true in Hin. unfold TypeTag in Hin.
  repeat (apply elem_of_cons in Hin as [-> | Hin];
          [ eexists; reflexivity | ]).
  apply elem_of_nil in Hin. contradiction.
Qed.

Lemma typeValidation_unknown_tag (value type : Value) (st : Store) :
  knownTag type = false ->
  typeValidation value type st
  = (Normal false, add_logged [VStr "No type validator found for"; type] st).
Proof.
  destruct type as [ | | | | s | | ]; try reflexivity. cbn [knownTag].
  intros Hout. apply bool_decide_eq_false in Hout.
  apply typeValidation_unknown. exact Hout.
Qed.

(** [typeValidation] logs exactly when the [switch] falls to [default], that
    is when [type] is not one of the fifteen tag strings (a missing type, or a
    tag wrapped in an array, is not): it then answers [false] and hands the
    logger one call naming [type].  On a tag it leaves the store alone. *)
Theorem typeValidation_diagnostic (value type : Value) (st : Store) :
  if knownTag type
  then exists b, typeValidation value type st = (Normal b, st)
  else typeValidation value type st
       = (Normal false,
          {| typeSpecificValidations := typeSpecificValidations st;
             logged := logged st ++ [[VStr "No type validator found for"; type]];
             posted := posted st |}).
Proof.
  destruct (knownTag type) eqn:Hknown.
  - apply typeValidation_known. exact Hknown.
  - apply typeValidation_unknown_tag. exact Hknown.
Qed.

(** The whole effect of [validate] on the store: one call to the logger when
    the rule is an object, the short-circuit does not apply and the type is
    not a tag; nothing otherwise. *)
Theorem validate_store_effect (validationSettings value : Value) (st : Store) :
  (validate validationSettings value st).2
  = if isObject validationSettings
       && negb (shortCircuits validationSettings value)
       && negb (knownTag (Get validationSettings "type"))
    then add_logged [VStr "No type validator found for";
                     Get validationSettings "type"] st
    else st.
Proof.
  rewrite validate_unfold. fold (shortCircuits validationSettings value).
  destruct (isObject validationSettings); [ | reflexivity ].
  destruct (shortCircuits validationSettings value); [ reflexivity | ].
  cbn [negb andb]. unfold checks, bind.
  destruct (knownTag (Get validationSettings "type")) eqn:Hknown.
  - destruct (typeValidation_known value _ st Hknown) as [b ->].
    match goal with
    | |- context [typeSpecificValidation ?res ?v ?t ?s] =>
        destruct (typeSpecificValidation_run res v t s) as [r ->]
    end.
    reflexivity.
  - rewrite (typeValidation_unknown_tag value _ st Hknown).
    match goal with
    | |- context [typeSpecificValidation ?res ?v ?t ?s] =>
        destruct (typeSpecificValidation_run res v t s) as [r ->]
    end.
    reflexivity.
Qed.

(** A rule without a [type] never validates a value it checks: the type check
    fails on [undefined], the logger is told, and the result has status
    [false] with the type message first, whatever the table holds. *)
Theorem missing_type_fails (validationSettings value : Value) (st : Store) :
  isObject validationSettings = true ->
  Get validationSettings "type" = VUndefined ->
  shortCircuits validationSettings value = false ->
  exists r,
    validate validationSettings value st
    = (Normal r, add_logged [VStr "No type validator found for"; VUndefined] st)
    /\ status r = false
    /\ head (messages r) = Some (typeMessage value).
Proof.
  intros Hobject Htype Hchecked.
  rewrite validate_unfold, Hobject. fold (shortCircuits validationSettings value).
  rewrite Hchecked. cbn [negb]. unfold checks, bind. rewrite Htype.
  eexists. split; [ reflexivity | ].
  rewrite minMaxValidation_unfold. split; reflexivity.
Qed.

End Diagnostics.

(** ** What every result satisfies *)

Section Results.
Context {host : Host}.

Lemma numberMinMaxValidation_status_messages (value validationSettings : Value) :
  status (numberMinMaxValidation value validationSettings) = true
  <-> messages (numberMinMaxValidation value validationSettings) = [].
Proof.
  unfold numberMinMaxValidation.
  destruct (isNumeric value); [ | done ].
  destruct (negb (isLargerThanMin _ _)), (negb (isSmallerThanMax _ _));
    cbn; split; intros; done.
Qed.

Lemma lengthMinMaxValidation_status_messages (value validationSettings : Value) :
  status (lengthMinMaxValidation value validationSettings) = true
  <-> messages (lengthMinMaxValidation value validationSettings) = [].
Proof.
  unfold lengthMinMaxValidation.
  destruct (isArray value || isString value); [ | done ].
  destruct (negb (isLargerThanLength _ _)), (negb (isSmallerThanLength _ _));
    cbn; split; intros; done.
Qed.

Lemma customMessages_status (value : Value) (validators : list CustomValidator.t) :
  forallb (fun customValidator => CustomValidator.validator customValidator value)
          validators = true
  <-> customMessages value validators = [].
Proof.
  unfold customMessages.
  induction validators as [ | customValidator validators IH ]; [ done | ].
  cbn [forallb List.filter].
  destruct (CustomValidator.validator customValidator value); cbn; [ exact IH | done ].
Qed.

Lemma numberMinMaxValidation_value (validated validationSettings : Value) :
  Forall (fun m => value m = validated)
         (messages (numberMinMaxValidation validated validationSettings)).
Proof.
  unfold numberMinMaxValidation.
  destruct (isNumeric validated); [ | constructor ].
  destruct (negb (isLargerThanMin _ _)), (negb (isSmallerThanMax _ _));
    cbn; repeat constructor.
Qed.

Lemma lengthMinMaxValidation_value (validated validationSettings : Value) :
  Forall (fun m => value m = validated)
         (messages (lengthMinMaxValidation validated validationSettings)).
Proof.
  unfold lengthMinMaxValidation.
  destruct (isArray validated || isString validated); [ | constructor ].
  destruct (negb (isLargerThanLength _ _)), (negb (isSmallerThanLength _ _));
    cbn; repeat constructor.
Qed.

Lemma customMessages_value (validated : Value) (validators : list CustomValidator.t) :
  Forall (fun m => value m = validated) (customMessages validated validators).
Proof.
  unfold customMessages.
  induction validators as [ | customValidator validators IH ]; [ constructor | ].
  cbn [List.filter].
  destruct (negb (CustomValidator.validator customValidator validated));
    [ cbn [List.map]; constructor; [ reflexivity | exact IH ] | exact IH ].
Qed.

(** What [validate] answers when it answers a result: the short-circuit's
    [passed], or the result of the checks. *)
Lemma validate_returns (validationSettings validated : Value) (st st' : Store)
      (r : ValidationResult) :
  validate validationSettings validated st = (Normal r, st') ->
  r = passed
  \/ exists typeOk : bool,
      status r
      = match validatorsFor st (Get validationSettings "type") with
        | Some validators =>
            forallb (fun customValidator =>
                       CustomValidator.validator customValidator validated)
                    validators
        | None =>
            typeOk
            && status (numberMinMaxValidation validated validationSettings)
            && status (lengthMinMaxValidation validated validationSettings)
        end
      /\ messages r
         = ((if typeOk then [] else [typeMessage validated])
            ++ messages (numberMinMaxValidation validated validationSettings)
            ++ messages (lengthMinMaxValidation validated validationSettings)
            ++ match validatorsFor st (Get validationSettings "type") with
               | Some validators => customMessages validated validators
               | None => []
               end)%list.
Proof.
  rewrite validate_unfold.
  destruct (negb (isObject validationSettings)); [ discriminate | ].
  destruct (_ && _); [ intros [= <- <-]; left; reflexivity | ].
  destruct (checks_result validationSettings validated st)
    as (typeOk & st'' & _ & _ & ->).
  intros [= <- <-]. right. exists typeOk. split; reflexivity.
Qed.

(** A result with status [false] carries at least one message, as the
    documentation of [validate] promises. *)
Theorem failed_validation_has_message (validationSettings validated : Value)
        (st st' : Store) (r : ValidationResult) :
  validate validationSettings validated st = (Normal r, st') ->
  status r = false ->
  messages r <> [].
Proof.
  intros Hrun Hfailed Hempty.
  destruct (validate_returns _ _ _ _ _ Hrun) as [-> | (typeOk & Hstatus & Hmessages)];
    [ discriminate | ].
  rewrite Hmessages in Hempty.
  apply List.app_eq_nil in Hempty as [Htype Hempty].
  apply List.app_eq_nil in Hempty as [Hnumber Hempty].
  apply List.app_eq_nil in Hempty as [Hlength Hcustom].
  apply numberMinMaxValidation_status_messages in Hnumber.
  apply lengthMinMaxValidation_status_messages in Hlength.
  rewrite Hstatus, Hnumber, Hlength in Hfailed.
  destruct (validatorsFor st (Get validationSettings "type")) as [validators | ].
  - apply customMessages_status in Hcustom. congruence.
  - destruct typeOk; discriminate.
Qed.

(** Every message of a result carries the value that was validated. *)
Theorem messages_carry_value (validationSettings validated : Value)
        (st st' : Store) (r : ValidationResult) :
  validate validationSettings validated st = (Normal r, st') ->
  Forall (fun m => value m = validated) (messages r).
Proof.
  intros Hrun.
  destruct (validate_returns _ _ _ _ _ Hrun) as [-> | (typeOk & _ & ->)];
    [ constructor | ].
  repeat apply Forall_app_2.
  - destruct typeOk; repeat constructor.
  - apply numberMinMaxValidation_value.
  - apply lengthMinMaxValidation_value.
  - destruct (validatorsFor st (Get validationSettings "type"));
      [ apply customMessages_value | constructor ].
Qed.


(** For a type without type-specific validators, the status of a result is
    [true] exactly when it has no message. *)
Theorem status_iff_no_message (validationSettings validated : Value)
        (st st' : Store) (r : ValidationResult) :
  validatorsFor st (Get validationSettings "type") = None ->
  validate validationSettings validated st = (Normal r, st') ->
  status r = true <-> messages r = [].
Proof.
  intros Hnone Hrun.
  destruct (validate_returns _ _ _ _ _ Hrun) as [-> | (typeOk & -> & ->)];
    [ done | ].
  rewrite Hnone, app_nil_r.
  rewrite !andb_true_iff, numberMinMaxValidation_status_messages,
    lengthMinMaxValidation_status_messages.
  split.
  - intros [[-> ->] ->]. reflexivity.
  - intros Hempty.
    apply List.app_eq_nil in Hempty as [Htype Hempty].
    apply List.app_eq_nil in Hempty as [Hnumber Hlength].
    destruct typeOk; [ auto | discriminate ].
Qed.

End Results.

(** ** Bounds on whole numbers and on lengths *)

Section Ranges.
Context {host : Host}.

Lemma js_ge_Num (a b : Z) : js_ge (Num a) (Num b) = (b <=? a)%Z.
Proof.
  unfold js_ge, IsLessThan, Num, number_of_Z. cbn.
  unfold Qlt_bool, Qle_bool. cbn. rewrite !Z.mul_1_r.
  destruct (b <=? a)%Z; reflexivity.
Qed.

Lemma js_le_Num (a b : Z) : js_le (Num a) (Num b) = (a <=? b)%Z.
Proof.
  unfold js_le, IsLessThan, Num, number_of_Z. cbn.
  unfold Qlt_bool, Qle_bool. cbn. rewrite !Z.mul_1_r.
  destruct (a <=? b)%Z; reflexivity.
Qed.

Lemma isInteger_Num (z : Z) : isInteger (Num z) = true.
Proof.
  cbn. unfold isWhole. rewrite Qfloor_Z. apply Qeq_bool_iff. reflexivity.
Qed.

Lemma not_numeric_not_integer (v : Value) : isNumeric v = false -> isInteger v = false.
Proof.
  intros Hnumeric. destruct (isInteger v) eqn:Hinteger; [ | reflexivity ].
  apply isInteger_isNumeric in Hinteger. congruence.
Qed.

(** With whole bounds, the numeric check passes a whole number exactly when
    it lies between them. *)
Lemma numberMinMaxValidation_Num (v lo hi : Z) (validationSettings : Value) :
  Get validationSettings "min" = Num lo ->
  Get validationSettings "max" = Num hi ->
  status (numberMinMaxValidation (Num v) validationSettings)
  = ((lo <=? v) && (v <=? hi))%Z.
Proof.
  intros Hmin Hmax. unfold numberMinMaxValidation, isLargerThanMin, isSmallerThanMax.
  rewrite Hmin, Hmax.
  change (isNumeric (Num v)) with true. change (isNumeric (Num lo)) with true.
  change (isNumeric (Num hi)) with true. cbv iota.
  rewrite js_ge_Num, js_le_Num.
  destruct (lo <=? v)%Z, (v <=? hi)%Z; reflexivity.
Qed.

(** With whole bounds, the length check passes a truthy array or string
    exactly when its length lies between them. *)
Lemma lengthMinMaxValidation_length (value validationSettings : Value) (n lo hi : Z) :
  isArray value || isString value = true ->
  ToBoolean value = true ->
  Get value "length" = Num n ->
  Get validationSettings "min" = Num lo ->
  Get validationSettings "max" = Num hi ->
  status (lengthMinMaxValidation value validationSettings)
  = ((lo <=? n) && (n <=? hi))%Z.
Proof.
  intros Hsequence Htruthy Hlength Hmin Hmax.
  unfold lengthMinMaxValidation, isLargerThanLength, isSmallerThanLength.
  rewrite Hsequence, Htruthy, Hlength, Hmin, Hmax, !isInteger_Num.
  cbn [negb andb]. rewrite js_ge_Num, js_le_Num.
  destruct (lo <=? n)%Z, (n <=? hi)%Z; reflexivity.
Qed.

Lemma numberMinMaxValidation_no_bounds (value validationSettings : Value) :
  isNumeric (Get validationSettings "min") = false ->
  isNumeric (Get validationSettings "max") = false ->
  numberMinMaxValidation value validationSettings = passed.
Proof.
  intros Hmin Hmax. unfold numberMinMaxValidation, isLargerThanMin, isSmallerThanMax.
  rewrite Hmin, Hmax. destruct (isNumeric value); reflexivity.
Qed.

Lemma lengthMinMaxValidation_no_bounds (value validationSettings : Value) :
  isNumeric (Get validationSettings "min") = false ->
  isNumeric (Get validationSettings "max") = false ->
  lengthMinMaxValidation value validationSettings = passed.
Proof.
  intros Hmin Hmax.
  unfold lengthMinMaxValidation, isLargerThanLength, isSmallerThanLength.
  rewrite (not_numeric_not_integer _ Hmin), (not_numeric_not_integer _ Hmax).
  destruct (isArray value || isString value); reflexivity.
Qed.

(** When both sub-checks pass, [minMaxValidation] hands its argument back. *)
Lemma minMaxValidation_passed (result : ValidationResult)
      (value validationSettings : Value) :
  numberMinMaxValidation value validationSettings = passed ->
  lengthMinMaxValidation value validationSettings = passed ->
  minMaxValidation result value validationSettings = result.
Proof.
  intros Hnumber Hlength. unfold minMaxValidation. rewrite Hnumber, Hlength.
  reflexivity.
Qed.

(** On the loaded module only ["PHONENUMBER"] has type-specific validators. *)
Lemma loaded_unregistered (result : ValidationResult) (value : Value) (tag : string)
      (lg : list (list Value)) (ps : list (string * Value)) :
  tag <> "PHONENUMBER" ->
  typeSpecificValidation result value (VStr tag) (loaded lg ps)
  = (Normal result, loaded lg ps).
Proof.
  intros Hother. apply typeSpecificValidation_unregistered.
  cbn. apply lookup_singleton_ne. congruence.
Qed.

(** A rule without numeric bounds (without a [min] and a [max], say) puts no
    bound on any value: [minMaxValidation] hands its argument back. *)
Theorem no_numeric_bounds_no_failure (result : ValidationResult)
        (value validationSettings : Value) :
  isNumeric (Get validationSettings "min") = false ->
  isNumeric (Get validationSettings "max") = false ->
  minMaxValidation result value validationSettings = result.
Proof.
  intros Hmin Hmax. apply minMaxValidation_passed.
  - apply numberMinMaxValidation_no_bounds; assumption.
  - apply lengthMinMaxValidation_no_bounds; assumption.
Qed.

(** Bounds apply to numbers, arrays and strings only: on any other value
    (a boolean, [null], an object, [NaN], an infinity) [minMaxValidation]
    hands its argument back, whatever the bounds. *)
Theorem bounds_skip_other_values (result : ValidationResult)
        (value validationSettings : Value) :
  isNumeric value = false ->
  isArray value = false ->
  isString value = false ->
  minMaxValidation result value validationSettings = result.
Proof.
  intros Hnumeric Harray Hstring. apply minMaxValidation_passed.
  - unfold numberMinMaxValidation. rewrite Hnumeric. reflexivity.
  - unfold lengthMinMaxValidation. rewrite Harray, Hstring. reflexivity.
Qed.

(** With type ['INTEGER'] and whole bounds, a whole number the short-circuit
    does not exempt validates exactly when it lies between the bounds. *)
Theorem integer_in_range (validationSettings : Value) (v lo hi : Z)
        (lg : list (list Value)) (ps : list (string * Value)) :
  isObject validationSettings = true ->
  Get validationSettings "type" = VStr "INTEGER" ->
  Get validationSettings "min" = Num lo ->
  Get validationSettings "max" = Num hi ->
  shortCircuits validationSettings (Num v) = false ->
  exists r,
    validate validationSettings (Num v) (loaded lg ps) = (Normal r, loaded lg ps)
    /\ status r = ((lo <=? v) && (v <=? hi))%Z.
Proof.
  intros Hobject Htype Hmin Hmax Hchecked.
  rewrite validate_unfold, Hobject. fold (shortCircuits validationSettings (Num v)).
  rewrite Hchecked. cbn [negb]. unfold checks, bind. rewrite Htype.
  change (typeValidation (Num v) (VStr "INTEGER") (loaded lg ps))
    with (Normal (isInteger (Num v)), loaded lg ps).
  rewrite isInteger_Num. cbv beta iota.
  rewrite loaded_unregistered by discriminate.
  eexists. split; [ reflexivity | ].
  rewrite minMaxValidation_unfold. cbn [status messages negb passed andb].
  rewrite (numberMinMaxValidation_Num v lo hi) by assumption.
  change (lengthMinMaxValidation (Num v) validationSettings) with passed.
  apply andb_true_r.
Qed.

(** With type ['COLLECTION'] and whole bounds, an array validates exactly when
    its length lies between the bounds. *)
Theorem collection_length_in_range (validationSettings : Value) (items : list Value)
        (lo hi : Z) (lg : list (list Value)) (ps : list (string * Value)) :
  isObject validationSettings = true ->
  Get validationSettings "type" = VStr "COLLECTION" ->
  Get validationSettings "min" = Num lo ->
  Get validationSettings "max" = Num hi ->
  exists r,
    validate validationSettings (VArr items) (loaded lg ps)
    = (Normal r, loaded lg ps)
    /\ status r
       = ((lo <=? Z.of_nat (length items)) && (Z.of_nat (length items) <=? hi))%Z.
Proof.
  intros Hobject Htype Hmin Hmax.
  rewrite validate_unfold, Hobject. cbn [negb ToBoolean]. rewrite andb_false_r.
  unfold checks, bind. rewrite Htype.
  change (typeValidation (VArr items) (VStr "COLLECTION") (loaded lg ps))
    with (Normal true, loaded lg ps).
  cbv beta iota. rewrite loaded_unregistered by discriminate.
  eexists. split; [ reflexivity | ].
  rewrite minMaxValidation_unfold. cbn [status messages negb passed andb].
  change (numberMinMaxValidation (VArr items) validationSettings) with passed.
  apply (lengthMinMaxValidation_length (VArr items)); auto.
Qed.

(** With type ['TEXT'] and whole bounds, a string that is not empty and does
    not spell a number validates exactly when its length lies between the
    bounds. *)
Theorem text_length_in_range (validationSettings : Value) (s : string) (lo hi : Z)
        (lg : list (list Value)) (ps : list (string * Value)) :
  isObject validationSettings = true ->
  Get validationSettings "type" = VStr "TEXT" ->
  Get validationSettings "min" = Num lo ->
  Get validationSettings "max" = Num hi ->
  s <> "" ->
  isNumeric (VStr s) = false ->
  exists r,
    validate validationSettings (VStr s) (loaded lg ps) = (Normal r, loaded lg ps)
    /\ status r
       = ((lo <=? Z.of_nat (String.length s)) && (Z.of_nat (String.length s) <=? hi))%Z.
Proof.
  intros Hobject Htype Hmin Hmax Hnonempty Hnumeric.
  assert (ToBoolean (VStr s) = true) as Htruthy.
  { cbn. apply String.eqb_neq in Hnonempty. rewrite Hnonempty. reflexivity. }
  rewrite validate_unfold, Hobject, Htruthy. cbn [negb]. rewrite andb_false_r.
  unfold checks, bind. rewrite Htype.
  change (typeValidation (VStr s) (VStr "TEXT") (loaded lg ps))
    with (Normal true, loaded lg ps).
  cbv beta iota. rewrite loaded_unregistered by discriminate.
  eexists. split; [ reflexivity | ].
  rewrite minMaxValidation_unfold. cbn [status messages negb passed andb].
  assert (numberMinMaxValidation (VStr s) validationSettings = passed) as ->.
  { unfold numberMinMaxValidation. rewrite Hnumeric. reflexivity. }
  apply (lengthMinMaxValidation_length (VStr s)); auto.
Qed.

(** The tags ['EMAIL'], ['URL'], ['COLOR'], ['PASSWORD'], ['IDENTIFIER'] and
    ['TEXT'] check no format: under a rule without numeric bounds every
    string validates, with no message and no diagnostic. *)
Theorem string_tags_accept_every_string (validationSettings : Value) (tag s : string)
        (lg : list (list Value)) (ps : list (string * Value)) :
  isObject validationSettings = true ->
  Get validationSettings "type" = VStr tag ->
  tag ∈ ["EMAIL"; "URL"; "COLOR"; "PASSWORD"; "IDENTIFIER"; "TEXT"] ->
  isNumeric (Get validationSettings "min") = false ->
  isNumeric (Get validationSettings "max") = false ->
  validate validationSettings (VStr s) (loaded lg ps)
  = (Normal {| status := true; messages := [] |}, loaded lg ps).
Proof.
  intros Hobject Htype Htag Hmin Hmax.
  rewrite validate_unfold, Hobject. cbn [negb].
  destruct (_ && _); [ reflexivity | ].
  unfold checks, bind. rewrite Htype.
  repeat (apply elem_of_cons in Htag as [-> | Htag];
          [ change (typeValidation (VStr s) (VStr ?t) (loaded lg ps))
              with (Normal true, loaded lg ps);
            cbv beta iota;
            rewrite loaded_unregistered by discriminate;
            cbn [negb];
            rewrite (minMaxValidation_passed passed)
              by (first [ apply numberMinMaxValidation_no_bounds
                        | apply lengthMinMaxValidation_no_bounds ]; assumption);
            reflexivity | ]).
  apply elem_of_nil in Htag. contradiction.
Qed.

(** The tags ['DATE'], ['REFERENCE'], ['BOOLEAN'] and ['CONSTANT'] check
    nothing: under a rule without numeric bounds every value validates, with
    no message and no diagnostic. *)
Theorem open_tags_accept_every_value (validationSettings value : Value) (tag : string)
        (lg : list (list Value)) (ps : list (string * Value)) :
  isObject validationSettings = true ->
  Get validationSettings "type" = VStr tag ->
  tag ∈ ["DATE"; "REFERENCE"; "BOOLEAN"; "CONSTANT"] ->
  isNumeric (Get validationSettings "min") = false ->
  isNumeric (Get validationSettings "max") = false ->
  validate validationSettings value (loaded lg ps)
  = (Normal {| status := true; messages := [] |}, loaded lg ps).
Proof.
  intros Hobject Htype Htag Hmin Hmax.
  rewrite validate_unfold, Hobject. cbn [negb].
  destruct (_ && _); [ reflexivity | ].
  unfold checks, bind. rewrite Htype.
  repeat (apply elem_of_cons in Htag as [-> | Htag];
          [ change (typeValidation value (VStr ?t) (loaded lg ps))
              with (Normal true, loaded lg ps);
            cbv beta iota;
            rewrite loaded_unregistered by discriminate;
            cbn [negb];
            rewrite (minMaxValidation_passed passed)
              by (first [ apply numberMinMaxValidation_no_bounds
                        | apply lengthMinMaxValidation_no_bounds ]; assumption);
            reflexivity | ]).
  apply elem_of_nil in Htag. contradiction.
Qed.

End Ranges.

(** ** The phone-number validator *)

Section PhoneNumber.
Context {host : Host}.

Lemma list_ascii_of_string_app (a b : string) :
  String.list_ascii_of_string (a ++ b)
  = (String.list_ascii_of_string a ++ String.list_ascii_of_string b)%list.
Proof.
  induction a as [ | c a IH ]; [ reflexivity | ].
  change (c :: String.list_ascii_of_string (a ++ b)
          = c :: (String.list_ascii_of_string a ++ String.list_ascii_of_string b)%list).
  rewrite IH. reflexivity.
Qed.

(** A text with a comma in it does not match. *)
Lemma phoneNumberRegEx_test_comma (a b : string) :
  phoneNumberRegEx_test (a ++ "," ++ b) = false.
Proof.
  unfold phoneNumberRegEx_test.
  rewrite !list_ascii_of_string_app, !forallb_app.
  change (forallb phoneNumberChar (String.list_ascii_of_string ",")) with false.
  cbn [andb]. rewrite andb_false_r. apply andb_false_r.
Qed.

Lemma digits_only (d : Decimal.uint) :
  forallb phoneNumberChar (String.list_ascii_of_string (NilEmpty.string_of_uint d))
  = true.
Proof.
  induction d as [ | d IH | d IH | d IH | d IH | d IH | d IH | d IH | d IH | d IH | d IH ];
    [ reflexivity | .. ];
    cbn [NilEmpty.string_of_uint String.list_ascii_of_string forallb];
    rewrite IH; reflexivity.
Qed.

(** The decimal digits of a natural number match. *)
Lemma phoneNumberRegEx_test_digits (d : Decimal.uint) :
  phoneNumberRegEx_test (NilZero.string_of_uint d) = true.
Proof.
  unfold phoneNumberRegEx_test.
  destruct d; [ reflexivity | .. ];
    (apply andb_true_intro; split; [ reflexivity | apply digits_only ]).
Qed.

(** What the validator rejects whatever its content: [undefined], [null],
    booleans, [NaN], the infinities, the empty string, the empty array, every
    object that inherits its [toString] and every printable array of two
    elements or more.  An array of one printable element is judged by the
    text of that element. *)
Theorem phoneNumber_rejects :
  phoneNumber VUndefined = false
  /\ phoneNumber VNull = false
  /\ (forall b, phoneNumber (VBool b) = false)
  /\ (forall props, props !! "toString" = None -> phoneNumber (VObj props) = false)
  /\ phoneNumber (VNum NaN) = false
  /\ (forall negative, phoneNumber (VNum (Infinity negative)) = false)
  /\ phoneNumber (VStr "") = false
  /\ phoneNumber (VArr []) = false
  /\ (forall x y rest,
         printable (VArr (x :: y :: rest)) = true ->
         phoneNumber (VArr (x :: y :: rest)) = false)
  /\ (forall x,
         printable x = true ->
         phoneNumber (VArr [x]) = phoneNumberRegEx_test (joinElement x)).
Proof.
  repeat split; try reflexivity.
  - intros []; reflexivity.
  - intros []; reflexivity.
  - intros x y rest _. unfold phoneNumber. rewrite ToString_array.
    apply phoneNumberRegEx_test_comma.
Qed.

(** The validator converts its argument to a string, so it accepts a number:
    a whole number below [10^21] in size passes exactly when it is not
    negative. *)
Theorem phoneNumber_whole_number (z : Z) :
  (Z.abs z < 10 ^ 21)%Z ->
  phoneNumber (Num z) = (0 <=? z)%Z.
Proof.
  intros Hsmall. unfold phoneNumber, Num, number_of_Z.
  cbn [ToString Number_toString].
  assert (isWhole (inject_Z z) = true) as ->.
  { unfold isWhole. rewrite Qfloor_Z. apply Qeq_bool_iff. reflexivity. }
  rewrite Qfloor_Z. apply Z.ltb_lt in Hsmall. rewrite Hsmall. cbn [andb].
  destruct z as [ | p | p ]; cbn [Z.to_int NilZero.string_of_int].
  - reflexivity.
  - apply phoneNumberRegEx_test_digits.
  - reflexivity.
Qed.

(** With type ['PHONENUMBER'] and no numeric bounds, a string the
    short-circuit does not exempt validates exactly when it matches the
    pattern, and fails with the message of the phone-number validator. *)
Theorem phone_number_rule (validationSettings : Value) (s : string)
        (lg : list (list Value)) (ps : list (string * Value)) :
  isObject validationSettings = true ->
  Get validationSettings "type" = VStr "PHONENUMBER" ->
  isNumeric (Get validationSettings "min") = false ->
  isNumeric (Get validationSettings "max") = false ->
  shortCircuits validationSettings (VStr s) = false ->
  validate validationSettings (VStr s) (loaded lg ps)
  = (Normal
       {| status := phoneNumberRegEx_test s;
          messages :=
            if phoneNumberRegEx_test s then [] else [phoneMessage (VStr s)] |},
     loaded lg ps).
Proof.
  intros Hobject Htype Hmin Hmax Hchecked.
  rewrite validate_unfold, Hobject. fold (shortCircuits validationSettings (VStr s)).
  rewrite Hchecked. cbn [negb]. unfold checks, bind. rewrite Htype.
  change (typeValidation (VStr s) (VStr "PHONENUMBER") (loaded lg ps))
    with (Normal true, loaded lg ps).
  cbv beta iota. cbn [negb].
  rewrite (minMaxValidation_passed passed)
    by (first [ apply numberMinMaxValidation_no_bounds
              | apply lengthMinMaxValidation_no_bounds ]; assumption).
  rewrite typeSpecificValidation_result. unfold validatorsFor.
  change (ToBoolean (VStr "PHONENUMBER")) with true. cbv iota.
  change (typeSpecificValidations (loaded lg ps) !! ToString (VStr "PHONENUMBER"))
    with (typeSpecificValidations_init !! "PHONENUMBER").
  unfold typeSpecificValidations_init. rewrite lookup_singleton_eq.
  unfold customMessages.
  cbn [forallb List.filter CustomValidator.validator CustomValidator.message].
  change (phoneNumber (VStr s)) with (phoneNumberRegEx_test s).
  destruct (phoneNumberRegEx_test s); reflexivity.
Qed.

End PhoneNumber.

(** ** The type-specific validators *)

Section TypeSpecific.
Context {host : Host}.

(** When the type has an entry in the table, every validator of the entry
    runs: each one that rejects the value adds its message, in table order,
    after the messages already there, and the status becomes the conjunction
    of the validators, whatever it was. *)
Theorem type_specific_validators_all_run (result : ValidationResult)
        (validated valueType : Value) (st : Store)
        (validators : list CustomValidator.t) :
  ToBoolean valueType = true ->
  typeSpecificValidations st !! ToString valueType = Some validators ->
  exists r,
    typeSpecificValidation result validated valueType st = (Normal r, st)
    /\ status r
       = forallb (fun customValidator =>
                    CustomValidator.validator customValidator validated)
                 validators
    /\ messages r = (messages result ++ customMessages validated validators)%list
    /\ length (messages r)
       = length (messages result)
         + length (List.filter
                     (fun customValidator =>
                        negb (CustomValidator.validator customValidator validated))
                     validators).
Proof.
  intros Htruthy Hentry.
  rewrite typeSpecificValidation_result. unfold validatorsFor.
  rewrite Htruthy, Hentry. eexists. split; [ reflexivity | ].
  cbn [status messages]. split; [ reflexivity | ]. split; [ reflexivity | ].
  unfold customMessages. rewrite length_app, length_map. reflexivity.
Qed.

End TypeSpecific.

(** ** Unknown tags, and falsy values that are checked *)

Section Checked.
Context {host : Host}.

Lemma not_false_checked (required value : Value) :
  required <> VBool false ->
  IsStrictlyEqual required (VBool false) && negb (ToBoolean value) = false.
Proof.
  intros Hrequired.
  destruct required as [ | | [] | | | | ]; try reflexivity. contradiction.
Qed.

(** The phone-number validator rejects the empty string, on the loaded
    module. *)
Lemma typeSpecificValidation_empty_phone (lg : list (list Value))
      (ps : list (string * Value)) :
  typeSpecificValidation passed (VStr "") (VStr "PHONENUMBER") (loaded lg ps)
  = (Normal {| status := false; messages := [phoneMessage (VStr "")] |},
     loaded lg ps).
Proof.
  rewrite typeSpecificValidation_result. unfold validatorsFor.
  change (ToBoolean (VStr "PHONENUMBER")) with true. cbv iota.
  change (typeSpecificValidations (loaded lg ps) !! ToString (VStr "PHONENUMBER"))
    with (typeSpecificValidations_init !! "PHONENUMBER").
  unfold typeSpecificValidations_init. rewrite lookup_singleton_eq.
  reflexivity.
Qed.

(** C7, as amended.  Take a rule whose type is not one of the tags, and is
    either falsy (a missing type) or printable with a text other than
    ["PHONENUMBER"], the one key of the table.  Unless the short-circuit
    applies, [validate] returns: the type check fails, the logger receives
    one diagnostic naming the type, and the result has status [false] and
    exactly one type message.  Every string outside [TypeTag] is such a type,
    and so is a missing one. *)
Theorem unknown_type_tag :
  (forall (validationSettings value : Value)
          (lg : list (list Value)) (ps : list (string * Value)),
      isObject validationSettings = true ->
      knownTag (Get validationSettings "type") = false ->
      ToBoolean (Get validationSettings "type") = false
      \/ (printable (Get validationSettings "type") = true
          /\ ToString (Get validationSettings "type") <> "PHONENUMBER") ->
      IsStrictlyEqual (Get validationSettings "required") (VBool false)
      && negb (ToBoolean value) = false ->
      exists r,
        validate validationSettings value (loaded lg ps)
        = (Normal r,
           loaded (lg ++ [[VStr "No type validator found for";
                           Get validationSettings "type"]]) ps)
        /\ (typeValidation value (Get validationSettings "type") (loaded lg ps)).1
           = Normal false
        /\ status r = false
        /\ List.filter isTypeMessage (messages r) = [typeMessage value])
  /\ (forall s : string,
         s ∉ TypeTag ->
         knownTag (VStr s) = false
         /\ printable (VStr s) = true
         /\ ToString (VStr s) <> "PHONENUMBER")
  /\ (knownTag VUndefined = false /\ ToBoolean VUndefined = false).
Proof.
  split; [ | split ].
  - intros validationSettings value lg ps Hobject Hunknown Hkey Hchecked.
    rewrite validate_unfold, Hobject, Hchecked. cbn [negb].
    unfold checks, bind.
    rewrite !(typeValidation_unknown_tag _ _ _ Hunknown).
    rewrite typeSpecificValidation_result.
    assert (validatorsFor
              (add_logged [VStr "No type validator found for";
                           Get validationSettings "type"] (loaded lg ps))
              (Get validationSettings "type") = None) as ->.
    { unfold validatorsFor. destruct Hkey as [-> | [_ Hkey]]; [ reflexivity | ].
      destruct (ToBoolean (Get validationSettings "type")); [ | reflexivity ].
      cbn. apply lookup_singleton_ne. congruence. }
    eexists. split; [ reflexivity | ]. split; [ reflexivity | ].
    rewrite minMaxValidation_unfold. cbn [negb status messages fail passed].
    split; [ reflexivity | ].
    rewrite !List.filter_app, numberMinMaxValidation_no_type_message,
      lengthMinMaxValidation_no_type_message.
    reflexivity.
  - intros s Hunknown. split; [ | split ].
    + apply bool_decide_eq_false. exact Hunknown.
    + reflexivity.
    + cbn. intros ->. apply Hunknown. unfold TypeTag. repeat constructor.
  - split; reflexivity.
Qed.

(** The type left out of C7: an array holding the tag is no tag for the
    [switch], yet its text is the key of the table, so the phone-number
    validator runs and its outcome replaces the status (the assignment of
    C1). *)
Lemma array_tag_reaches_the_table (lg : list (list Value))
      (ps : list (string * Value)) :
  validate (object [("type", VArr [VStr "PHONENUMBER"])]) (VStr "+47 123")
           (loaded lg ps)
  = (Normal {| status := true; messages := [typeMessage (VStr "+47 123")] |},
     loaded (lg ++ [[VStr "No type validator found for";
                     VArr [VStr "PHONENUMBER"]]]) ps).
Proof.
  reflexivity.
Qed.

(** C10.  The short-circuit needs [required] to be [false] itself.  Under an
    object rule whose [required] is anything else (absent, truthy, or falsy
    like [0], [null] and [""]), every value, falsy ones included, gets the
    result of the checks: the messages of the type check, of the numeric
    bounds, of the length bounds and of the type-specific validators, with
    the status they give.  On falsy values each check shows: type
    ['INTEGER'] refuses [undefined], [null], [false], [""] and [NaN]; a lower
    bound above [0] refuses [0]; a lower length bound of [1] or more refuses
    [""]; and the phone-number validator refuses [""]. *)
Theorem validate_required_absent_or_truthy :
  (forall (validationSettings value : Value) (st : Store),
      isObject validationSettings = true ->
      Get validationSettings "required" <> VBool false ->
      printable (Get validationSettings "type") = true ->
      printable value = true ->
      exists (typeOk : bool) (r : ValidationResult) (st' : Store),
        typeValidation value (Get validationSettings "type") st = (Normal typeOk, st')
        /\ validate validationSettings value st = (Normal r, st')
        /\ status r
           = match validatorsFor st (Get validationSettings "type") with
             | Some validators =>
                 forallb (fun customValidator =>
                            CustomValidator.validator customValidator value)
                         validators
             | None =>
                 typeOk
                 && status (numberMinMaxValidation value validationSettings)
                 && status (lengthMinMaxValidation value validationSettings)
             end
        /\ messages r
           = ((if typeOk then [] else [typeMessage value])
              ++ messages (numberMinMaxValidation value validationSettings)
              ++ messages (lengthMinMaxValidation value validationSettings)
              ++ match validatorsFor st (Get validationSettings "type") with
                 | Some validators => customMessages value validators
                 | None => []
                 end)%list)
  /\ (forall (validationSettings value : Value) lg ps,
         isObject validationSettings = true ->
         Get validationSettings "required" <> VBool false ->
         Get validationSettings "type" = VStr "INTEGER" ->
         value ∈ [VUndefined; VNull; VBool false; VStr ""; VNum NaN] ->
         exists r,
           validate validationSettings value (loaded lg ps)
           = (Normal r, loaded lg ps)
           /\ status r = false
           /\ head (messages r) = Some (typeMessage value))
  /\ (forall (validationSettings : Value) (lo : Z) lg ps,
         isObject validationSettings = true ->
         Get validationSettings "required" <> VBool false ->
         Get validationSettings "type" = VStr "INTEGER" ->
         Get validationSettings "min" = Num lo ->
         (0 < lo)%Z ->
         isNumeric (Get validationSettings "max") = false ->
         validate validationSettings (Num 0) (loaded lg ps)
         = (Normal
              {| status := false;
                 messages :=
                   [ {| message := "Value needs to be larger than or equal to "
                                   ++ ToString (Num lo);
                        value := Num 0 |} ] |},
            loaded lg ps))
  /\ (forall (validationSettings : Value) (lo : Z) lg ps,
         isObject validationSettings = true ->
         Get validationSettings "required" <> VBool false ->
         Get validationSettings "type" = VStr "TEXT" ->
         Get validationSettings "min" = Num lo ->
         (1 <= lo)%Z ->
         isNumeric (Get validationSettings "max") = false ->
         validate validationSettings (VStr "") (loaded lg ps)
         = (Normal
              {| status := false;
                 messages :=
                   [ {| message := "Value needs to be longer than or equal to "
                                   ++ ToString (Num lo);
                        value := VStr "" |} ] |},
            loaded lg ps))
  /\ (forall (validationSettings : Value) lg ps,
         isObject validationSettings = true ->
         Get validationSettings "required" <> VBool false ->
         Get validationSettings "type" = VStr "PHONENUMBER" ->
         isNumeric (Get validationSettings "min") = false ->
         isNumeric (Get validationSettings "max") = false ->
         validate validationSettings (VStr "") (loaded lg ps)
         = (Normal {| status := false; messages := [phoneMessage (VStr "")] |},
            loaded lg ps)).
Proof.
  split; [ | split; [ | split; [ | split ] ] ].
  - intros validationSettings value st Hobject Hrequired _ _.
    rewrite validate_unfold, Hobject, (not_false_checked _ value Hrequired).
    cbn [negb].
    destruct (checks_result validationSettings value st)
      as (typeOk & st' & Htype & _ & ->).
    exists typeOk. eexists _, st'. split; [ exact Htype | ].
    split; [ reflexivity | ]. split; reflexivity.
  - intros validationSettings value lg ps Hobject Hrequired Htype Hvalue.
    rewrite validate_unfold, Hobject, (not_false_checked _ value Hrequired).
    cbn [negb]. unfold checks, bind. rewrite Htype.
    assert (typeValidation value (VStr "INTEGER") (loaded lg ps)
            = (Normal false, loaded lg ps)) as ->.
    { repeat (apply elem_of_cons in Hvalue as [-> | Hvalue]; [ reflexivity | ]).
      apply elem_of_nil in Hvalue. contradiction. }
    rewrite loaded_unregistered by discriminate.
    eexists. split; [ reflexivity | ].
    rewrite minMaxValidation_unfold. split; reflexivity.
  - intros validationSettings lo lg ps Hobject Hrequired Htype Hmin Hpositive Hmax.
    rewrite validate_unfold, Hobject, (not_false_checked _ (Num 0) Hrequired).
    cbn [negb]. unfold checks, bind. rewrite Htype.
    change (typeValidation (Num 0) (VStr "INTEGER") (loaded lg ps))
      with (Normal true, loaded lg ps).
    cbv beta iota. rewrite loaded_unregistered by discriminate.
    do 2 f_equal. cbn [negb].
    unfold minMaxValidation, numberMinMaxValidation, isLargerThanMin,
      isSmallerThanMax.
    change (lengthMinMaxValidation (Num 0) validationSettings) with passed.
    change (isNumeric (Num 0)) with true. cbv iota.
    rewrite Hmax, Hmin. change (isNumeric (Num lo)) with true. cbv iota.
    rewrite js_ge_Num.
    assert ((lo <=? 0)%Z = false) as -> by (apply Z.leb_gt; exact Hpositive).
    cbn [negb fail passed status messages app].
    rewrite join_numeric_bound by reflexivity. reflexivity.
  - intros validationSettings lo lg ps Hobject Hrequired Htype Hmin _ Hmax.
    rewrite validate_unfold, Hobject, (not_false_checked _ (VStr "") Hrequired).
    cbn [negb]. unfold checks, bind. rewrite Htype.
    change (typeValidation (VStr "") (VStr "TEXT") (loaded lg ps))
      with (Normal true, loaded lg ps).
    cbv beta iota. rewrite loaded_unregistered by discriminate.
    do 2 f_equal. cbn [negb].
    unfold minMaxValidation, lengthMinMaxValidation, isLargerThanLength,
      isSmallerThanLength.
    change (numberMinMaxValidation (VStr "") validationSettings) with passed.
    change (isArray (VStr "") || isString (VStr "")) with true. cbv iota.
    rewrite (not_numeric_not_integer _ Hmax), Hmin, isInteger_Num.
    cbn [negb ToBoolean andb fail passed status messages app String.eqb].
    rewrite join_numeric_bound by reflexivity. reflexivity.
  - intros validationSettings lg ps Hobject Hrequired Htype Hmin Hmax.
    rewrite validate_unfold, Hobject, (not_false_checked _ (VStr "") Hrequired).
    cbn [negb]. unfold checks, bind. rewrite Htype.
    change (typeValidation (VStr "") (VStr "PHONENUMBER") (loaded lg ps))
      with (Normal true, loaded lg ps).
    cbv beta iota. cbn [negb].
    rewrite (minMaxValidation_passed passed)
      by (first [ apply numberMinMaxValidation_no_bounds
                | apply lengthMinMaxValidation_no_bounds ]; assumption).
    apply typeSpecificValidation_empty_phone.
Qed.

End Checked.

(** ** Instances on closed inputs *)

#[local] Existing Instance exampleHost.

Lemma validate_not_required_falsy_witness :
  Forall
    (fun value =>
       validate
                (object [("type", VStr "INTEGER"); ("min", Num 5);
                         ("required", VBool false)])
                value (loaded [] [])
       = (Normal {| status := true; messages := [] |}, loaded [] []))
    [VStr ""; Num 0; VNull; VUndefined; VBool false].
Proof.
  repeat (apply List.Forall_cons;
          [ apply validate_not_required_falsy; reflexivity | ]).
  apply List.Forall_nil.
Defined.

Lemma FOOBAR_unknown : "FOOBAR" ∉ TypeTag.
Proof.
  rewrite list_elem_of_In. cbn. intuition discriminate.
Defined.

Lemma FOOBAR_text : ToString (VStr "FOOBAR") <> "PHONENUMBER".
Proof. discriminate. Defined.

Lemma unknown_type_tag_witness :
  (exists r,
      validate (object [("type", VStr "FOOBAR")]) (Num 3) (loaded [] [])
      = (Normal r,
         loaded ([] ++ [[VStr "No type validator found for";
                         Get (object [("type", VStr "FOOBAR")]) "type"]]) [])
      /\ (typeValidation (Num 3) (Get (object [("type", VStr "FOOBAR")]) "type")
                         (loaded [] [])).1
         = Normal false
      /\ status r = false
      /\ List.filter isTypeMessage (messages r) = [typeMessage (Num 3)])
  /\ (exists r,
         validate (object [("min", Num 5)]) (Num 3) (loaded [] [])
         = (Normal r,
            loaded ([] ++ [[VStr "No type validator found for";
                            Get (object [("min", Num 5)]) "type"]]) [])
         /\ (typeValidation (Num 3) (Get (object [("min", Num 5)]) "type")
                            (loaded [] [])).1
            = Normal false
         /\ status r = false
         /\ List.filter isTypeMessage (messages r) = [typeMessage (Num 3)]).
Proof.
  split.
  - exact (proj1 unknown_type_tag
             (object [("type", VStr "FOOBAR")]) (Num 3) [] []
             eq_refl eq_refl (or_intror (conj eq_refl FOOBAR_text)) eq_refl).
  - exact (proj1 unknown_type_tag
             (object [("min", Num 5)]) (Num 3) [] []
             eq_refl eq_refl (or_introl eq_refl) eq_refl).
Defined.

(** C7, as stated, fails where the short-circuit applies: with
    [{type: 'FOOBAR', required: false}] and [null] the result has status
    [true] and no message, and the logger has received nothing. *)
Lemma unknown_type_tag_short_circuit :
  ("FOOBAR" ∉ TypeTag)
  /\ validate (object [("type", VStr "FOOBAR"); ("required", VBool false)])
              VNull (loaded [] [])
     = (Normal {| status := true; messages := [] |}, loaded [] []).
Proof.
  split; [ exact FOOBAR_unknown | reflexivity ].
Qed.

Lemma absent_not_false : VUndefined <> VBool false.
Proof. discriminate. Defined.

Lemma zero_not_false : Num 0 <> VBool false.
Proof. discriminate. Defined.

Lemma null_falsy_value : VNull ∈ [VUndefined; VNull; VBool false; VStr ""; VNum NaN].
Proof. constructor. constructor. Defined.

Lemma validate_required_absent_or_truthy_witness :
  (exists r,
      validate (object [("type", VStr "INTEGER")]) VNull (loaded [] [])
      = (Normal r, loaded [] [])
      /\ status r = false
      /\ head (messages r) = Some (typeMessage VNull))
  /\ validate (object [("type", VStr "INTEGER"); ("min", Num 5); ("required", Num 0)])
              (Num 0) (loaded [] [])
     = (Normal
          {| status := false;
             messages :=
               [ {| message := "Value needs to be larger than or equal to "
                               ++ ToString (Num 5);
                    value := Num 0 |} ] |},
        loaded [] [])
  /\ validate (object [("type", VStr "TEXT"); ("min", Num 2)]) (VStr "")
              (loaded [] [])
     = (Normal
          {| status := false;
             messages :=
               [ {| message := "Value needs to be longer than or equal to "
                               ++ ToString (Num 2);
                    value := VStr "" |} ] |},
        loaded [] [])
  /\ validate (object [("type", VStr "PHONENUMBER")]) (VStr "") (loaded [] [])
     = (Normal {| status := false; messages := [phoneMessage (VStr "")] |},
        loaded [] []).
Proof.
  split; [ | split; [ | split ] ].
  - exact (proj1 (proj2 validate_required_absent_or_truthy)
             (object [("type", VStr "INTEGER")]) VNull [] []
             eq_refl absent_not_false eq_refl null_falsy_value).
  - exact (proj1 (proj2 (proj2 validate_required_absent_or_truthy))
             (object [("type", VStr "INTEGER"); ("min", Num 5); ("required", Num 0)])
             5%Z [] [] eq_refl zero_not_false eq_refl eq_refl eq_refl eq_refl).
  - exact (proj1 (proj2 (proj2 (proj2 validate_required_absent_or_truthy)))
             (object [("type", VStr "TEXT"); ("min", Num 2)])
             2%Z [] [] eq_refl absent_not_false eq_refl eq_refl
             (Zle_bool_imp_le 1 2 eq_refl) eq_refl).
  - exact (proj2 (proj2 (proj2 (proj2 validate_required_absent_or_truthy)))
             (object [("type", VStr "PHONENUMBER")]) [] []
             eq_refl absent_not_false eq_refl eq_refl eq_refl).
Defined.


(** *** Further instances *)

Lemma missing_type_fails_witness :
  exists r,
    validate (object [("min", Num 1)]) (Num 3) (loaded [] [])
    = (Normal r,
       add_logged [VStr "No type validator found for"; VUndefined] (loaded [] []))
    /\ status r = false
    /\ head (messages r) = Some (typeMessage (Num 3)).
Proof.
  apply (missing_type_fails (object [("min", Num 1)]) (Num 3) (loaded [] []));
    reflexivity.
Defined.

Lemma failed_validation_has_message_witness :
  messages {| status := false; messages := [typeMessage VNull] |} <> [].
Proof.
  apply (failed_validation_has_message
           (object [("type", VStr "INTEGER")]) VNull (loaded [] []) (loaded [] []));
    reflexivity.
Defined.

Lemma messages_carry_value_witness :
  Forall (fun m => value m = VStr "a")
         (messages
            {| status := false;
               messages :=
                 [ {| message := "Value needs to be longer than or equal to 2";
                      value := VStr "a" |} ] |}).
Proof.
  apply (messages_carry_value
           (object [("type", VStr "TEXT"); ("min", Num 2); ("max", Num 4)])
           (VStr "a") (loaded [] []) (loaded [] [])).
  reflexivity.
Defined.


Lemma status_iff_no_message_witness :
  status {| status := false; messages := [typeMessage VNull] |} = true
  <-> messages {| status := false; messages := [typeMessage VNull] |} = [].
Proof.
  apply (status_iff_no_message
           (object [("type", VStr "INTEGER")]) VNull (loaded [] []) (loaded [] []));
    reflexivity.
Defined.

Lemma integer_in_range_witness :
  exists r,
    validate (object [("type", VStr "INTEGER"); ("min", Num 5); ("max", Num 10)])
             (Num 12) (loaded [] [])
    = (Normal r, loaded [] [])
    /\ status r = ((5 <=? 12) && (12 <=? 10))%Z.
Proof.
  apply (integer_in_range
           (object [("type", VStr "INTEGER"); ("min", Num 5); ("max", Num 10)])
           12 5 10 [] []);
    reflexivity.
Defined.

Lemma collection_length_in_range_witness :
  exists r,
    validate (object [("type", VStr "COLLECTION"); ("min", Num 1); ("max", Num 2)])
             (VArr [VNull; VNull; VNull]) (loaded [] [])
    = (Normal r, loaded [] [])
    /\ status r
       = ((1 <=? Z.of_nat (length [VNull; VNull; VNull]))
          && (Z.of_nat (length [VNull; VNull; VNull]) <=? 2))%Z.
Proof.
  apply (collection_length_in_range
           (object [("type", VStr "COLLECTION"); ("min", Num 1); ("max", Num 2)])
           [VNull; VNull; VNull] 1 2 [] []);
    reflexivity.
Defined.

Lemma abcde_nonempty : "abcde" <> "".
Proof. discriminate. Defined.

Lemma text_length_in_range_witness :
  exists r,
    validate (object [("type", VStr "TEXT"); ("min", Num 2); ("max", Num 4)])
             (VStr "abcde") (loaded [] [])
    = (Normal r, loaded [] [])
    /\ status r
       = ((2 <=? Z.of_nat (String.length "abcde"))
          && (Z.of_nat (String.length "abcde") <=? 4))%Z.
Proof.
  apply (text_length_in_range
           (object [("type", VStr "TEXT"); ("min", Num 2); ("max", Num 4)])
           "abcde" 2 4 [] []);
    [ reflexivity | reflexivity | reflexivity | reflexivity
    | exact abcde_nonempty | reflexivity ].
Defined.

Lemma no_numeric_bounds_no_failure_witness :
  minMaxValidation passed (VStr "") (object [("type", VStr "TEXT")]) = passed.
Proof.
  apply (no_numeric_bounds_no_failure passed (VStr "")
           (object [("type", VStr "TEXT")]));
    reflexivity.
Defined.

Lemma bounds_skip_other_values_witness :
  minMaxValidation passed (VBool true) (object [("min", Num 5); ("max", Num 10)])
  = passed.
Proof.
  apply (bounds_skip_other_values passed (VBool true)
           (object [("min", Num 5); ("max", Num 10)]));
    reflexivity.
Defined.

Lemma EMAIL_string_tag :
  "EMAIL" ∈ ["EMAIL"; "URL"; "COLOR"; "PASSWORD"; "IDENTIFIER"; "TEXT"].
Proof. constructor. Defined.

Lemma string_tags_accept_every_string_witness :
  validate (object [("type", VStr "EMAIL")]) (VStr "not an address") (loaded [] [])
  = (Normal {| status := true; messages := [] |}, loaded [] []).
Proof.
  apply (string_tags_accept_every_string
           (object [("type", VStr "EMAIL")]) "EMAIL" "not an address" [] []);
    [ reflexivity | reflexivity | exact EMAIL_string_tag | reflexivity | reflexivity ].
Defined.

Lemma DATE_open_tag : "DATE" ∈ ["DATE"; "REFERENCE"; "BOOLEAN"; "CONSTANT"].
Proof. constructor. Defined.

Lemma open_tags_accept_every_value_witness :
  validate (object [("type", VStr "DATE")]) (VBool true) (loaded [] [])
  = (Normal {| status := true; messages := [] |}, loaded [] []).
Proof.
  apply (open_tags_accept_every_value
           (object [("type", VStr "DATE")]) (VBool true) "DATE" [] []);
    [ reflexivity | reflexivity | exact DATE_open_tag | reflexivity | reflexivity ].
Defined.

Lemma phoneNumber_whole_number_witness :
  phoneNumber (Num 5551234) = (0 <=? 5551234)%Z.
Proof.
  apply (phoneNumber_whole_number 5551234). reflexivity.
Defined.

Lemma phone_number_rule_witness :
  validate (object [("type", VStr "PHONENUMBER")]) (VStr "+47 12a") (loaded [] [])
  = (Normal
       {| status := phoneNumberRegEx_test "+47 12a";
          messages :=
            if phoneNumberRegEx_test "+47 12a" then []
            else [phoneMessage (VStr "+47 12a")] |},
     loaded [] []).
Proof.
  apply (phone_number_rule (object [("type", VStr "PHONENUMBER")]) "+47 12a" [] []);
    reflexivity.
Defined.

Lemma type_specific_validators_all_run_witness :
  exists r,
    typeSpecificValidation passed (VStr "abc") (VStr "PHONENUMBER") (loaded [] [])
    = (Normal r, loaded [] [])
    /\ status r
       = forallb (fun customValidator =>
                    CustomValidator.validator customValidator (VStr "abc"))
                 [ {| CustomValidator.message :=
                        "Phone number can only consist of numbers and + and [space]";
                      CustomValidator.validator := phoneNumber |} ]
    /\ messages r
       = (messages passed
          ++ customMessages (VStr "abc")
               [ {| CustomValidator.message :=
                      "Phone number can only consist of numbers and + and [space]";
                    CustomValidator.validator := phoneNumber |} ])%list
    /\ length (messages r)
       = length (messages passed)
         + length (List.filter
                     (fun customValidator =>
                        negb (CustomValidator.validator customValidator (VStr "abc")))
                     [ {| CustomValidator.message :=
                            "Phone number can only consist of numbers and + and [space]";
                          CustomValidator.validator := phoneNumber |} ]).
Proof.
  apply (type_specific_validators_all_run passed (VStr "abc") (VStr "PHONENUMBER")
           (loaded [] []));
    reflexivity.
Defined.

Lemma phoneNumber_rejects_witness :
  phoneNumber (object [("name", VStr "a")]) = false
  /\ phoneNumber (VArr [VStr "1"; VStr "2"]) = false
  /\ phoneNumber (VArr [VStr "12"]) = phoneNumberRegEx_test (joinElement (VStr "12")).
Proof.
  destruct phoneNumber_rejects
    as (_ & _ & _ & Hobject & _ & _ & _ & _ & Hmany & Hone).
  split; [ | split ].
  - apply Hobject. reflexivity.
  - apply Hmany. reflexivity.
  - apply Hone. reflexivity.
Defined.
